(** * Rekall object renderers and the check_modules plugin

    A shallow embedding of
      - rekall-core/rekall/plugins/renderers/base_objects.py
      - volatility/plugins/linux/check_modules.py
    and the properties their specification states about them.

    Python text is modelled as a list of code points, dictionaries as
    [gmap], exceptions as an explicit error result, and the renderer class
    hierarchy by its method resolution order. *)

From stdpp Require Import gmap strings list sorting pretty.
From Stdlib Require Import ZArith Ascii Hexadecimal.

Open Scope Z_scope.

(** ** Text *)

(** A Python [unicode] object: a sequence of code points.  [len] is
    [length], slicing is [take]/[drop]. *)
Abbreviation unicode := (list N).

(** A literal: each character of an ASCII literal is its code point. *)
Definition u (s : string) : unicode :=
  N_of_ascii <$> String.list_ascii_of_string s.
Arguments u s%_string.

(** U+2026 HORIZONTAL ELLIPSIS, one character. *)
Definition ELLIPSIS : N := 8230%N.
Definition NUL : N := 0%N.
Definition LF : N := 10%N.

(** [sep.join(parts)] *)
Fixpoint join (sep : unicode) (parts : list unicode) : unicode :=
  match parts with
  | [] => []
  | [p] => p
  | p :: rest => p ++ sep ++ join sep rest
  end.

(** [s.split(sep)] for a one character separator: the segments between the
    occurrences of [sep]; never empty. *)
Fixpoint split (sep : N) (s : unicode) : list unicode :=
  match s with
  | [] => [[]]
  | c :: s' =>
      if decide (c = sep) then [] :: split sep s'
      else match split sep s' with
           | [] => [[c]]
           | seg :: segs => (c :: seg) :: segs
           end
  end.

(** [" " * n]; a count that is not positive gives the empty string. *)
Definition spaces (n : Z) : unicode := replicate (Z.to_nat n) 32%N.

(** [unicode(n)] for an integer. *)
Definition unicode_of_int (n : Z) : unicode := u (pretty n).

Fixpoint hex_upper (d : Hexadecimal.uint) : unicode :=
  match d with
  | Nil => []
  | D0 d => u "0" ++ hex_upper d | D1 d => u "1" ++ hex_upper d
  | D2 d => u "2" ++ hex_upper d | D3 d => u "3" ++ hex_upper d
  | D4 d => u "4" ++ hex_upper d | D5 d => u "5" ++ hex_upper d
  | D6 d => u "6" ++ hex_upper d | D7 d => u "7" ++ hex_upper d
  | D8 d => u "8" ++ hex_upper d | D9 d => u "9" ++ hex_upper d
  | Da d => u "A" ++ hex_upper d | Db d => u "B" ++ hex_upper d
  | Dc d => u "C" ++ hex_upper d | Dd d => u "D" ++ hex_upper d
  | De d => u "E" ++ hex_upper d | Df d => u "F" ++ hex_upper d
  end.

(** ["%02X" % n]: upper case hexadecimal, zero padded to two columns, the
    sign of a negative number counting as a column. *)
Definition format_02X (n : Z) : unicode :=
  let digits := hex_upper (N.to_hex_uint (Z.abs_N n)) in
  if n <? 0 then u "-" ++ digits
  else replicate (2 - length digits)%nat 48%N ++ digits.

(** ** Python's ordering of text and tuples, and [sorted] *)

(** [a <= b] on text: lexicographic on code points. *)
Fixpoint unicode_leb (a b : unicode) : bool :=
  match a, b with
  | [], _ => true
  | _ :: _, [] => false
  | x :: a', y :: b' =>
      if (x <? y)%N then true
      else if (x =? y)%N then unicode_leb a' b'
      else false
  end.

(** [a < b] on text. *)
Definition unicode_lt (a b : unicode) : Prop :=
  unicode_leb a b = true ∧ a ≠ b.

(** [x <= y] on 2-tuples: the first components decide unless they are
    equal. *)
Definition tuple_leb {A B} `{EqDecision A}
    (leA : A → A → bool) (leB : B → B → bool) (x y : A * B) : bool :=
  if decide (x.1 = y.1) then leB x.2 y.2 else leA x.1 y.1.

(** A boolean comparison that is a total order. *)
Class BoolOrder {A} (le : A → A → bool) := {
  bo_total x y : le x y = true ∨ le y x = true;
  bo_trans x y z : le x y = true → le y z = true → le x z = true;
  bo_antisym x y : le x y = true → le y x = true → x = y
}.

Definition le_of {A} (le : A → A → bool) : relation A :=
  λ x y, Is_true (le x y).

Global Instance le_of_dec {A} (le : A → A → bool) x y :
  Decision (le_of le x y).
Proof. unfold le_of. apply _. Defined.

(** [sorted(l)] / [l.sort()].  Python's sort is a stable merge sort; on a
    total order whose ties are equal elements the result is the one sorted
    rearrangement of [l] (see [sorted_unique] below), so the particular
    merge strategy is not observable. *)
Definition sorted {A} (le : A → A → bool) (l : list A) : list A :=
  merge_sort (le_of le) l.

(** ** Exceptions *)

Inductive exn :=
| AttributeError
| ValueError
| TypeError
| NotImplementedError.

Inductive result (A : Type) :=
| Ok (a : A)
| Raise (e : exn).
Arguments Ok {A} a.
Arguments Raise {A} e.

Definition bind {A B} (r : result A) (k : A → result B) : result B :=
  match r with
  | Ok a => k a
  | Raise e => Raise e
  end.

Notation "'let!' x ':=' r 'in' k" := (bind r (λ x, k))
  (at level 10, x name, r at level 100, k at level 200).

Definition raises {A} (r : result A) : Prop :=
  match r with Ok _ => False | Raise _ => True end.

(** ** Cells (rekall.ui.text.Cell) *)

(** A highlight span [(start, end, foreground, background)]. *)
Definition highlight : Type := Z * Z * option string * option string.

(** Modelled from the spec: [text.Cell] is not part of the sources at hand.
    "Cell: value object — ordered list of text lines, optional fixed width,
    optional list of (start, end, color-tag, background-tag) highlight
    spans ... [lines] is never absent (empty sequence if no content)".
    The record keeps the constructor's arguments; [lines] is derived. *)
Record Cell := mkCell {
  cell_value : unicode;
  cell_width : option Z;
  cell_highlights : list highlight
}.

(** [text.Cell(value)] *)
Definition cell (value : unicode) : Cell := mkCell value None [].

(** [value.splitlines()] on line feeds: no line for empty content, and a
    final line feed does not open another line. *)
Definition splitlines (s : unicode) : list unicode :=
  match s with
  | [] => []
  | _ =>
      let segs := split LF s in
      match last segs with
      | Some [] => removelast segs
      | _ => segs
      end
  end.

Definition lines (c : Cell) : list unicode := splitlines (cell_value c).

(** ** The memory-object model

    The typed values the renderers receive.  The object model itself
    (rekall.obj) lies outside the two modules embedded here; this is the
    part of its interface the renderers use. *)

Module obj.

Inductive Obj :=
| PyNone                                   (* Python's None *)
| NoneObject (reason : unicode)            (* obj.NoneObject *)
| PyBool (b : bool)
| PyInt (n : Z)
| PyStr (s : unicode)
| NativeType (obj_offset : Z) (value : Z)
| String (obj_offset : Z) (text : unicode)
| Flags (obj_offset : Z) (value : Z) (maskmap : gmap unicode Z)
| Enumeration (obj_offset : Z) (value : Z)
  (choices : gmap unicode unicode) (default : option unicode)
| Pointer (obj_offset : Z) (value : Z) (target : unicode)
| Void (obj_offset : Z) (value : Z)
| Struct (obj_offset : Z) (obj_type : string) (members : list Member)
(** A member [k] of a struct: [m_attr] is what [getattr(target, k)] gives,
  [m_raw] what [target.m(k)] gives. *)
with Member :=
| mkMember (m_name : unicode) (m_attr : Obj) (m_raw : Obj).

Definition m_name (m : Member) : unicode := let 'mkMember k _ _ := m in k.
Definition m_attr (m : Member) : Obj := let 'mkMember _ a _ := m in a.
Definition m_raw (m : Member) : Obj := let 'mkMember _ _ r := m in r.

End obj.
Import obj (Obj, Member).

(** [x == None].  Modelled from the spec: "NullSentinel ... must compare
    equal to an explicit null constant". *)
Definition is_None (x : Obj) : bool :=
  match x with
  | obj.PyNone | obj.NoneObject _ => true
  | _ => false
  end.

(** [target.v()].  Plain Python values have no such method. *)
Definition v (target : Obj) : result Obj :=
  match target with
  | obj.NativeType _ n | obj.Flags _ n _ | obj.Enumeration _ n _ _
  | obj.Pointer _ n _ | obj.Void _ n => Ok (obj.PyInt n)
  | obj.String _ s => Ok (obj.PyStr s)
  | obj.Struct off _ _ => Ok (obj.PyInt off)
  | obj.NoneObject r => Ok (obj.NoneObject r)
  | obj.PyNone | obj.PyBool _ | obj.PyInt _ | obj.PyStr _ =>
      Raise AttributeError
  end.

(** [unicode(x)].  Modelled from the spec for the null sentinel ("must
    render as a fixed placeholder"); a typed value reads as its [v()]. *)
Definition unicode_of (x : Obj) : unicode :=
  match x with
  | obj.PyNone => u "None"
  | obj.NoneObject _ => u "-"
  | obj.PyBool true => u "True"
  | obj.PyBool false => u "False"
  | obj.PyInt n => unicode_of_int n
  | obj.PyStr s => s
  | obj.NativeType _ n | obj.Flags _ n _ | obj.Enumeration _ n _ _
  | obj.Pointer _ n _ | obj.Void _ n => unicode_of_int n
  | obj.String _ s => s
  | obj.Struct off _ _ => unicode_of_int off
  end.

(** [utils.SmartUnicode(x)] and [utils.SmartStr(x)]: the text of [x]. *)
Definition SmartUnicode (x : Obj) : unicode := unicode_of x.
Definition SmartStr (x : Obj) : unicode := unicode_of x.

(** [bool(x)] *)
Definition truthy (x : Obj) : bool :=
  match x with
  | obj.PyNone | obj.NoneObject _ => false
  | obj.PyBool b => b
  | obj.PyInt n | obj.NativeType _ n | obj.Flags _ n _
  | obj.Enumeration _ n _ _ | obj.Pointer _ n _ | obj.Void _ n =>
      negb (n =? 0)
  | obj.PyStr s | obj.String _ s => negb (bool_decide (s = []))
  | obj.Struct _ _ _ => true
  end.

(** The place of a member in the full render of a struct, as the render
    computes it: an integer, or the [NoneObject] that shows the member. *)
Inductive offset_key :=
| KInt (n : Z)
| KNoneObject (reason : unicode).

Global Instance offset_key_eq_dec : EqDecision offset_key.
Proof. solve_decision. Defined.

(** [getattr(x, "obj_offset", default)].  A [NoneObject] answers every
    attribute with itself; the default is for the values that have no
    such attribute. *)
Definition getattr_obj_offset (x : Obj) (default : Z) : offset_key :=
  match x with
  | obj.NativeType off _ | obj.String off _ | obj.Flags off _ _
  | obj.Enumeration off _ _ _ | obj.Pointer off _ _ | obj.Void off _
  | obj.Struct off _ _ => KInt off
  | obj.NoneObject reason => KNoneObject reason
  | _ => KInt default
  end.

(** [a - b]: a [NoneObject] less a number is the [NoneObject]. *)
Definition key_sub (a : offset_key) (b : Z) : offset_key :=
  match a with
  | KInt n => KInt (n - b)
  | KNoneObject reason => KNoneObject reason
  end.

(** [x.obj_offset] *)
Definition obj_offset (x : Obj) : result Z :=
  match x with
  | obj.NativeType off _ | obj.String off _ | obj.Flags off _ _
  | obj.Enumeration off _ _ _ | obj.Pointer off _ _ | obj.Void off _
  | obj.Struct off _ _ => Ok off
  | _ => Raise AttributeError
  end.

(** [getattr(target, name)] for a member name. *)
Definition getattr (target : Obj) (name : unicode) : result Obj :=
  match target with
  | obj.Struct _ _ members =>
      match list_find (λ m, obj.m_name m = name) members with
      | Some (_, m) => Ok (obj.m_attr m)
      | None => Raise AttributeError
      end
  | _ => Raise AttributeError
  end.

(** The type identifier of a value followed by its supertypes, most
    specific first (the names of the classes in its method resolution
    order). *)
Definition type_chain (x : Obj) : list string :=
  (match x with
   | obj.PyNone => ["NoneType"]
   | obj.NoneObject _ => ["NoneObject"]
   | obj.PyBool _ => ["bool"; "int"]
   | obj.PyInt _ => ["int"]
   | obj.PyStr _ => ["unicode"; "basestring"]
   | obj.NativeType _ _ => ["NativeType"; "BaseObject"]
   | obj.String _ _ => ["String"; "NativeType"; "BaseObject"]
   | obj.Flags _ _ _ => ["Flags"; "NativeType"; "BaseObject"]
   | obj.Enumeration _ _ _ _ => ["Enumeration"; "NativeType"; "BaseObject"]
   | obj.Pointer _ _ _ => ["Pointer"; "NativeType"; "BaseObject"]
   | obj.Void _ _ => ["Void"; "Pointer"; "NativeType"; "BaseObject"]
   | obj.Struct _ ty _ => [ty; "Struct"; "BaseObject"]
   end ++ ["object"]).

(** ** Renderer classes (base_objects.py) *)

(** The renderer classes of the typed values modelled above, with
    [text.TextObjectRenderer], the class they all derive from.  The
    renderers of plugins, timestamps, sets, lists and functions take values
    of other kinds and are left out. *)
Inductive cls :=
| TextObjectRenderer
| BaseObjectTextRenderer
| StringTextRenderer
| NoneObjectTextRenderer
| NoneTextRenderer
| PythonBoolTextRenderer
| NativeTypeTextRenderer
| FlagsTextRenderer
| EnumerationTextRenderer
| PointerTextRenderer
| VoidTextRenderer
| StructTextRenderer.

Global Instance cls_eq_dec : EqDecision cls.
Proof. solve_decision. Defined.

(** [class C(B)] *)
Definition base (c : cls) : option cls :=
  match c with
  | TextObjectRenderer => None
  | BaseObjectTextRenderer => Some TextObjectRenderer
  | StringTextRenderer => Some BaseObjectTextRenderer
  | NoneObjectTextRenderer => Some BaseObjectTextRenderer
  | NoneTextRenderer => Some NoneObjectTextRenderer
  | PythonBoolTextRenderer => Some TextObjectRenderer
  | NativeTypeTextRenderer => Some BaseObjectTextRenderer
  | FlagsTextRenderer => Some BaseObjectTextRenderer
  | EnumerationTextRenderer => Some BaseObjectTextRenderer
  | PointerTextRenderer => Some NativeTypeTextRenderer
  | VoidTextRenderer => Some PointerTextRenderer
  | StructTextRenderer => Some TextObjectRenderer
  end.

Fixpoint ancestors (depth : nat) (c : cls) : list cls :=
  match depth with
  | O => []
  | S d => c :: match base c with
                | Some b => ancestors d b
                | None => []
                end
  end.

(** The method resolution order of a class; no chain is longer than five
    classes. *)
Definition mro (c : cls) : list cls := ancestors 5 c.

(** [renders_type] *)
Definition renders_type (c : cls) : list string :=
  match c with
  | TextObjectRenderer => ["object"]
  | BaseObjectTextRenderer => ["BaseObject"]
  | StringTextRenderer => ["String"]
  | NoneObjectTextRenderer => ["NoneObject"]
  | NoneTextRenderer => ["NoneType"]
  | PythonBoolTextRenderer => ["bool"]
  | NativeTypeTextRenderer => ["NativeType"]
  | FlagsTextRenderer => ["Flags"]
  | EnumerationTextRenderer => ["Enumeration"]
  | PointerTextRenderer => ["Pointer"]
  | VoidTextRenderer => ["Void"]
  | StructTextRenderer => ["Struct"]
  end.

(** The function bodies of the module, one name per [def]. *)
Inductive code :=
| TextObject_render_full
| TextObject_render_compact
| TextObject_render_value
| TextObject_render_repr
| TextObject_render_address
| TextObject_render_row
| BaseObject_render_address
| BaseObject_render_full
| BaseObject_render_value
| String_render_full
| NoneObject_render_row
| PythonBool_render_full
| NativeType_render_address
| Flags_render_full
| Flags_render_value
| Flags_render_compact
| Enumeration_render_full
| Pointer_render_value
| Pointer_render_full
| Pointer_render_compact
| Void_render_full
| Struct_render_full
| Struct_render_compact
| Struct_render_repr.

(** The attributes a class body binds.  [render_value = render_full] binds
    a second name to the same function. *)
Definition class_dict (c : cls) : gmap string code :=
  match c with
  | TextObjectRenderer =>
      list_to_map [("render_full", TextObject_render_full);
                   ("render_compact", TextObject_render_compact);
                   ("render_value", TextObject_render_value);
                   ("render_repr", TextObject_render_repr);
                   ("render_address", TextObject_render_address);
                   ("render_row", TextObject_render_row)]
  | BaseObjectTextRenderer =>
      list_to_map [("render_address", BaseObject_render_address);
                   ("render_full", BaseObject_render_full);
                   ("render_value", BaseObject_render_value)]
  | StringTextRenderer =>
      list_to_map [("render_full", String_render_full);
                   ("render_value", String_render_full);
                   ("render_compact", String_render_full)]
  | NoneObjectTextRenderer =>
      list_to_map [("render_row", NoneObject_render_row)]
  | NoneTextRenderer => ∅
  | PythonBoolTextRenderer =>
      list_to_map [("render_full", PythonBool_render_full);
                   ("render_value", PythonBool_render_full);
                   ("render_compact", PythonBool_render_full)]
  | NativeTypeTextRenderer =>
      list_to_map [("render_address", NativeType_render_address)]
  | FlagsTextRenderer =>
      list_to_map [("render_full", Flags_render_full);
                   ("render_value", Flags_render_value);
                   ("render_compact", Flags_render_compact)]
  | EnumerationTextRenderer =>
      list_to_map [("render_full", Enumeration_render_full);
                   ("render_compact", Enumeration_render_full)]
  | PointerTextRenderer =>
      list_to_map [("render_value", Pointer_render_value);
                   ("render_full", Pointer_render_full);
                   ("render_compact", Pointer_render_compact)]
  | VoidTextRenderer =>
      list_to_map [("render_full", Void_render_full);
                   ("render_compact", Void_render_full)]
  | StructTextRenderer =>
      list_to_map [("render_full", Struct_render_full);
                   ("render_compact", Struct_render_compact);
                   ("render_repr", Struct_render_repr)]
  end.

(** The first element of [l] on which [f] answers. *)
Fixpoint first_some {A B} (f : A → option B) (l : list A) : option B :=
  match l with
  | [] => None
  | x :: l' => match f x with Some y => Some y | None => first_some f l' end
  end.

(** Attribute lookup on an instance of [c]: the first class of the method
    resolution order that binds the name. *)
Definition lookup_attr (c : cls) (name : string) : option code :=
  first_some (λ k, class_dict k !! name) (mro c).

(** [DEFAULT_STYLE].  [StructTextRenderer] sets it to "compact"; for the
    base class the value is modelled from the spec (each renderer produces
    the full form unless told otherwise). *)
Definition DEFAULT_STYLE (c : cls) : string :=
  match c with
  | StructTextRenderer => "compact"
  | _ => "full"
  end.

(** ** The renderer registry *)

(** The classes in the order their definitions register them. *)
Definition registered : list cls :=
  [TextObjectRenderer; BaseObjectTextRenderer; StringTextRenderer;
   NoneObjectTextRenderer; NoneTextRenderer; PythonBoolTextRenderer;
   NativeTypeTextRenderer; FlagsTextRenderer; EnumerationTextRenderer;
   PointerTextRenderer; VoidTextRenderer; StructTextRenderer].

(** Modelled from the spec: the registry of [renderer.ObjectRenderer] is not
    part of the sources at hand.  "a mapping from a type identifier to the
    most specific registered renderer"; "last registration for a given
    identifier wins". *)
Definition registry : gmap string cls :=
  foldl (λ reg c, foldl (λ reg t, <[t := c]> reg) reg (renders_type c))
        ∅ registered.

(** Modelled from the spec: [ObjectRenderer.ForTarget].  "Resolution walks
    this list and returns the first registered entry whose claimed type set
    intersects it; if none match, returns a generic default entry". *)
Definition ForTarget (target : Obj) : cls :=
  default TextObjectRenderer
          (first_some (λ t, registry !! t) (type_chain target)).

(** ** Renderer instances *)

(** A column specification: the dictionary of one column. *)
Abbreviation ColumnSpec := (gmap string unicode).

(** Modelled from the spec: [text.TextTable] is not part of the sources at
    hand.  "a fixed ordered list of columns (name, source-field accessor,
    width/format hint) used to render a sequence of same-kind compound
    objects as rows". *)
Record TextTable := mkTextTable { table_columns : list ColumnSpec }.

(** The keyword options of a render call. *)
Record options := mkOptions {
  style : option string;
  width : option Z
}.

Definition no_options : options := mkOptions None None.

(** A renderer object: its class and the instance attributes that
    [StructTextRenderer.__init__] sets. *)
Record renderer := mkRenderer {
  r_cls : cls;
  columns : option (list ColumnSpec);
  table : option TextTable
}.

(** [sorted(target.maskmap.items())] compares [(name, mask)] pairs. *)
Definition item_leb : unicode * Z → unicode * Z → bool :=
  tuple_leb unicode_leb Z.leb.

(** The loop of [FlagsTextRenderer.render_full]: the names of the sorted
    items whose mask meets the value. *)
Definition flag_names (value : Z) (maskmap : gmap unicode Z) : list unicode :=
  (filter (λ kv, Z.land value kv.2 ≠ 0)
          (sorted item_leb (map_to_list maskmap))).*1.

(** The elision of [FlagsTextRenderer.render_compact]. *)
Definition elide (line : unicode) : unicode :=
  if 40 <? Z.of_nat (length line) then take 39 line ++ [ELLIPSIS] else line.

(** One entry of [fields] in [StructTextRenderer.render_full]:
    [(offset, k, v)]. *)
Definition field : Type := offset_key * unicode * unicode.

(** [a <= b] on the first components.  A number comes before an object
    that is not one; where a [NoneObject] comes among the fields has no
    effect on the render, which raises when it formats one. *)
Definition key_leb (a b : offset_key) : bool :=
  match a, b with
  | KInt m, KInt n => m <=? n
  | KInt _, KNoneObject _ => true
  | KNoneObject _, KInt _ => false
  | KNoneObject r, KNoneObject r' => unicode_leb r r'
  end.

Definition field_leb : field → field → bool :=
  tuple_leb (tuple_leb key_leb unicode_leb) unicode_leb.

Definition len (s : unicode) : Z := Z.of_nat (length s).

(** [width_name] after the loop over the members. *)
Definition width_name (members : list Member) : Z :=
  foldl (λ w m, Z.max w (len (obj.m_name m))) 0 members.

(** [u"  0x%02X %s%s %s" % (offset, k, " " * (width_name - len(k)), v)]:
    the conversion [%02X] takes a number, and raises [TypeError] on a
    [NoneObject]. *)
Definition format_field (width_name : Z) (f : field) : result unicode :=
  let '(offset, k, v) := f in
  match offset with
  | KInt n =>
      Ok (u "  0x" ++ format_02X n ++ u " " ++ k
            ++ spaces (width_name - len k) ++ u " " ++ v)
  | KNoneObject _ => Raise TypeError
  end.

(** The list of the formatted fields, built in their order. *)
Fixpoint format_fields (width_name : Z) (fields : list field)
    : result (list unicode) :=
  match fields with
  | [] => Ok []
  | f :: rest =>
      let! line := format_field width_name f in
      let! lines := format_fields width_name rest in
      Ok (line :: lines)
  end.

(** The loop over [self.columns] in [StructTextRenderer.render_compact]. *)
Fixpoint column_values (target : Obj) (columns : list ColumnSpec)
    : result (list Obj) :=
  match columns with
  | [] => Ok []
  | column :: rest =>
      match column !! "cname" with
      | Some (c :: cname) =>
          let! a := getattr target (c :: cname) in
          let! values := column_values target rest in
          Ok (a :: values)
      | _ => Raise ValueError
      end
  end.

Section Renderers.

(** What the renderers take from the rest of the framework. *)

(** [repr(x)] of a value of the object model. *)
Variable repr : Obj → unicode.
(** [self.format_address(address)] of [text.TextObjectRenderer]. *)
Variable format_address : Z → unicode.
(** [text.TextTable(columns=...)], which may reject its columns. *)
Variable new_table : list ColumnSpec → result TextTable.
(** [table.get_row] applied to the values of a row. *)
Variable get_row : TextTable → list Obj → result Cell.
(** The address space: the typed value a pointer to an address reads. *)
Variable image : gmap Z Obj.

(** [target.deref()]: the value at the pointer's address, or the null
    sentinel when there is none. *)
Definition deref (target : Obj) : result Obj :=
  match target with
  | obj.Pointer _ a _ =>
      Ok (default (obj.NoneObject (u "invalid address")) (image !! a))
  | obj.Void _ _ => Ok (obj.NoneObject (u "void"))
  | _ => Raise AttributeError
  end.

(** [target.v()] where an integer is expected. *)
Definition v_int (target : Obj) : result Z :=
  let! x := v target in
  match x with
  | obj.PyInt n => Ok n
  | _ => Raise TypeError
  end.

(** [StructTextRenderer.__init__]: [columns] is the keyword argument, the
    class attributes [COLUMNS] and [table] are [None]. *)
Definition StructTextRenderer_init (kw_columns : option (list ColumnSpec))
    : result renderer :=
  let columns := kw_columns in
  match columns with
  | Some (c :: cs) =>
      let! t := new_table (c :: cs) in
      Ok (mkRenderer StructTextRenderer columns (Some t))
  | _ => Ok (mkRenderer StructTextRenderer columns None)
  end.

(** [c(session=..., renderer=...)] *)
Definition new (c : cls) : result renderer :=
  match c with
  | StructTextRenderer => StructTextRenderer_init None
  | _ => Ok (mkRenderer c None None)
  end.

(** [fields] of [StructTextRenderer.render_full] before sorting. *)
Definition struct_field (off : Z) (m : Member) : field :=
  let a := obj.m_attr m in
  let o := if is_None a then obj.m_raw m else a in
  (key_sub (getattr_obj_offset o off) off, obj.m_name m, repr o).

Definition struct_fields (off : Z) (members : list Member) : list field :=
  sorted field_leb (struct_field off <$> members).

(** A method call [self.name(target, **options)]: what a function body
    may ask of the interpreter. *)
Definition sender : Type :=
  renderer → string → Obj → options → option (result Cell).

(** The function bodies.  [None] is a call that did not return within
    the recursion depth [send] was given. *)
Definition body (send : sender) (self : renderer) (f : code)
    (target : Obj) (o : options) : option (result Cell) :=
  match f with
  (* text.TextObjectRenderer, modelled from the spec: "value falls back
     to full; compact falls back to full; address falls back to
     formatting the value's offset", the row render selects the method
     of the requested verbosity. *)
  | TextObject_render_full =>
      Some (Ok (mkCell (unicode_of target) (width o) []))
  | TextObject_render_compact => send self "render_full" target o
  | TextObject_render_value => send self "render_full" target no_options
  | TextObject_render_repr => Some (Ok (cell (repr target)))
  | TextObject_render_address =>
      Some (let! off := obj_offset target in Ok (cell (format_address off)))
  | TextObject_render_row =>
      let s := default (DEFAULT_STYLE (r_cls self)) (style o) in
      match lookup_attr (r_cls self) ("render_" +:+ s) with
      | None => Some (Raise NotImplementedError)
      | Some _ =>
          send self ("render_" +:+ s) target (mkOptions None (width o))
      end
  (* BaseObjectTextRenderer *)
  | BaseObject_render_address =>
      Some (let! off := obj_offset target in Ok (cell (format_address off)))
  | BaseObject_render_full =>
      Some (let! x := v target in Ok (mkCell (unicode_of x) (width o) []))
  | BaseObject_render_value =>
      Some (let! x := v target in Ok (cell (unicode_of x)))
  (* StringTextRenderer *)
  | String_render_full =>
      Some (Ok (cell (default [] (head (split NUL (SmartUnicode target))))))
  (* NoneObjectTextRenderer *)
  | NoneObject_render_row => Some (Ok (cell (u "-")))
  (* PythonBoolTextRenderer *)
  | PythonBool_render_full =>
      let color := if truthy target then "GREEN" else "RED" in
      Some (Ok (mkCell (unicode_of target) None
                       [(0, -1, Some color, None)]))
  (* NativeTypeTextRenderer *)
  | NativeType_render_address =>
      Some (let! a := v_int target in
            Ok (mkCell (format_address a) (width o) []))
  (* FlagsTextRenderer *)
  | Flags_render_full =>
      Some (match target with
            | obj.Flags _ value maskmap =>
                Ok (cell (join (u ", ") (flag_names value maskmap)))
            | _ => Raise AttributeError
            end)
  | Flags_render_value =>
      (* [self.v()]: looked up on the renderer, not on [target] *)
      Some (match lookup_attr (r_cls self) "v" with
            | None => Raise AttributeError
            | Some _ => Raise TypeError
            end)
  | Flags_render_compact =>
      match send self "render_full" target no_options with
      | None => None
      | Some (Raise e) => Some (Raise e)
      | Some (Ok full) =>
          Some (match lines full with
                | [] => Ok (cell (u "-"))
                | line :: _ => Ok (cell (elide line))
                end)
      end
  (* EnumerationTextRenderer *)
  | Enumeration_render_full =>
      Some (match target with
            | obj.Enumeration _ value choices dflt =>
                let value := obj.PyInt value in
                match from_option Some dflt (choices !! SmartStr value) with
                | Some (c :: name) => Ok (cell (c :: name))
                | _ => Ok (cell (u "UNKNOWN (" ++ SmartUnicode value
                                   ++ u ")"))
                end
            | _ => Raise AttributeError
            end)
  (* PointerTextRenderer *)
  | Pointer_render_value => send self "render_address" target o
  | Pointer_render_full =>
      match deref target with
      | Raise e => Some (Raise e)
      | Ok target_obj =>
          if is_None target_obj then Some (Ok (cell (u "-")))
          else
            let delegate_cls := ForTarget target_obj in
            match new delegate_cls with
            | Raise e => Some (Raise e)
            | Ok delegate =>
                send delegate "render_full" target_obj no_options
            end
      end
  | Pointer_render_compact =>
      Some (match target with
            | obj.Pointer _ a ty =>
                Ok (cell (u "(" ++ ty ++ u " *) " ++ format_address a))
            | _ => Raise AttributeError
            end)
  (* VoidTextRenderer *)
  | Void_render_full =>
      Some (let! a := v_int target in
            Ok (cell (u "(void *) " ++ format_address a)))
  (* StructTextRenderer *)
  | Struct_render_full =>
      Some (match target with
            | obj.Struct off _ members =>
                let result := repr target ++ [LF] in
                let fields := struct_fields off members in
                let! lines := format_fields (width_name members) fields in
                Ok (cell (result ++ join [LF] lines ++ [LF]))
            | _ => Raise AttributeError
            end)
  | Struct_render_compact =>
      match table self with
      | None => send self "render_repr" target no_options
      | Some t =>
          Some (match columns self with
                | None => Raise TypeError
                | Some cols =>
                    let! values := column_values target cols in
                    get_row t values
                end)
      end
  | Struct_render_repr => Some (Ok (cell (repr target)))
  end.

(** [self.name(target, **options)] within a recursion depth. *)
Fixpoint send (depth : nat) (self : renderer) (name : string)
    (target : Obj) (o : options) : option (result Cell) :=
  match depth with
  | O => None
  | S d =>
      match lookup_attr (r_cls self) name with
      | None => Some (Raise AttributeError)
      | Some f => body (send d) self f target o
      end
  end.

(** The render entry point: the row render of the renderer resolved for
    the value, in the given style. *)
Definition render (depth : nat) (target : Obj) (s : string)
    : option (result Cell) :=
  match new (ForTarget target) with
  | Raise e => Some (Raise e)
  | Ok self => send depth self "render_row" target (mkOptions (Some s) None)
  end.

(** [self.name(target, **o)] returns [r]. *)
Definition returns (self : renderer) (name : string) (target : Obj)
    (o : options) (r : result Cell) : Prop :=
  ∃ depth, send depth self name target o = Some r.

End Renderers.

(** ** The list renderer and pointer chains *)

Section ListRenderer.
Variable repr : Obj → unicode.
Variable format_address : Z → unicode.
Variable new_table : list ColumnSpec → result TextTable.
Variable get_row : TextTable → list Obj → result Cell.
Variable image : gmap Z Obj.

(** The row render of one item of a list: the renderer resolved for the
    item, then its [render_row] with the options of the list.  The option
    [wrap], which the loop sets to false, asks the cell not to fold long
    lines; cells here never fold their lines. *)
Definition item_render_row (depth : nat) (item : Obj) (o : options)
    : option (result Cell) :=
  match new new_table (ForTarget item) with
  | Raise e => Some (Raise e)
  | Ok object_renderer =>
      send repr format_address new_table get_row image
           depth object_renderer "render_row" item o
  end.

(** The loop of [ListRenderer.render_row]: [result] after the items.  The
    separator of the lines of an item is the two characters backslash
    and n. *)
Fixpoint ListRenderer_items (depth : nat) (target : list Obj) (o : options)
    : option (result (list unicode)) :=
  match target with
  | [] => Some (Ok [])
  | item :: rest =>
      match item_render_row depth item o with
      | None => None
      | Some (Raise e) => Some (Raise e)
      | Some (Ok c) =>
          match ListRenderer_items depth rest o with
          | None => None
          | Some (Raise e) => Some (Raise e)
          | Some (Ok result) => Some (Ok (join (u "\n") (lines c) :: result))
          end
      end
  end.

(** [ListRenderer.render_row]: [width] is taken out of the options, the
    others go to the items. *)
Definition ListRenderer_render_row (depth : nat) (target : list Obj)
    (o : options) : option (result Cell) :=
  let width := width o in
  match ListRenderer_items depth target (mkOptions (style o) None) with
  | None => None
  | Some (Raise e) => Some (Raise e)
  | Some (Ok result) => Some (Ok (mkCell (join (u ", ") result) width []))
  end.

(** [follows ptr target]: dereferencing [ptr], and the pointers this gives
    one after the other, comes to [target], which is not the null
    sentinel. *)
Inductive follows : Obj → Obj → Prop :=
| follows_one ptr target :
    deref image ptr = Ok target → is_None target = false →
    follows ptr target
| follows_step ptr off a ty target :
    deref image ptr = Ok (obj.Pointer off a ty) →
    follows (obj.Pointer off a ty) target →
    follows ptr target.

End ListRenderer.

(** ** A small framework instance

    Concrete stand-ins for what the renderers take from the rest of the
    framework, to run the renderers on examples. *)

Module sample.

Definition repr (x : Obj) : unicode := u "<" ++ unicode_of x ++ u ">".

Definition format_address (a : Z) : unicode := u "0x" ++ format_02X a.

(** A table that keeps its columns as they are given. *)
Definition new_table (cols : list ColumnSpec) : result TextTable :=
  Ok (mkTextTable cols).

Definition get_row (t : TextTable) (values : list Obj) : result Cell :=
  Ok (cell (join (u " ") (unicode_of <$> values))).

Definition maskmap : gmap unicode Z :=
  list_to_map [(u "WRITE", 2); (u "READ", 1); (u "EXEC", 4)].

(** Three flags whose joined names take 43 characters. *)
Definition long_maskmap : gmap unicode Z :=
  list_to_map [(u "PAGE_EXECUTE_READ", 1); (u "PAGE_GUARD", 2);
               (u "PAGE_NOCACHE", 4)].

Definition image : gmap Z Obj :=
  list_to_map [(100, obj.NativeType 100 7);
               (200, obj.Pointer 200 200 (u "Pointer"));
               (300, obj.Flags 300 5 maskmap)].

Definition task : Obj :=
  obj.Struct 16 "task_struct"
    [obj.mkMember (u "pid") (obj.NativeType 24 3) (obj.NativeType 24 3);
     obj.mkMember (u "comm") (obj.NoneObject (u "unreadable"))
                  (obj.String 18 (u "init"))].

Definition send :=
  send repr format_address new_table get_row image.
Definition render :=
  render repr format_address new_table get_row image.

End sample.

(** ** More values for the examples *)

Module sample_more.

(** A pointer at 500 to a pointer at 600 to the flags at 700. *)
Definition chain_image : gmap Z Obj :=
  list_to_map [(600, obj.Pointer 600 700 (u "Flags"));
               (700, obj.Flags 700 5 sample.maskmap)].

(** The process states of the specification's example. *)
Definition states : gmap unicode unicode :=
  list_to_map [(u "1", u "RUNNING"); (u "2", u "STOPPED")].



Definition item_render_row :=
  item_render_row sample.repr sample.format_address sample.new_table
    sample.get_row sample.image.
Definition ListRenderer_render_row :=
  ListRenderer_render_row sample.repr sample.format_address sample.new_table
    sample.get_row sample.image.

End sample_more.

(** ** The check_modules plugin (check_modules.py) *)

Module check_modules.

(** A [struct kobject] of the image: its address, the value of its
    [name] pointer and [kref.refcount.counter]. *)
Record kobject := mkKobject {
  kobj_offset : Z;
  kobj_name : Z;
  kobj_refcount : Z
}.

(** A [struct module] object.  Two objects are the same module when they
    are the same type at the same address of the same image: the name
    takes no part. *)
Record module := mkModule { module_offset : Z }.

Global Instance module_eq_dec : EqDecision module.
Proof. solve_decision. Defined.

Global Instance module_countable : Countable module.
Proof.
  apply (inj_countable' module_offset mkModule). by intros [].
Defined.

(** The memory image as the plugin reads it, with the two profile
    constants it needs. *)
Record Image := mkImage {
  (** [module_kset.list.list_of_type("kobject", "entry")] *)
  kset_entries : list kobject;
  (** the text at the addresses that hold a string *)
  strings : gmap Z unicode;
  (** the [name] field of the [struct module] at an address *)
  module_names : gmap Z unicode;
  (** the offset of [mkobj] within [struct module] *)
  mkobj_offset : Z;
  (** [lsmod.get_module_list()]: the walk of the module list *)
  module_list : list module
}.

(** The truth value of the pointer [kobj.name]: a null pointer is
    false. *)
Definition name_truthy (kobj : kobject) : bool :=
  truthy (obj.Pointer (kobj_offset kobj) (kobj_name kobj) (u "String")).

(** [kobj.name.deref()] *)
Definition name_deref (img : Image) (kobj : kobject) : Obj :=
  match strings img !! kobj_name kobj with
  | Some s => obj.String (kobj_name kobj) s
  | None => obj.NoneObject (u "invalid address")
  end.

(** Modelled from the spec: [basic.container_of] is not part of the
    sources at hand.  "recover its containing structure by subtracting
    the known byte offset of the embedded sub-object from the kernel
    object's own offset and reinterpreting the result as the container
    type". *)
Definition container_of (img : Image) (kobj : kobject) : module :=
  mkModule (kobj_offset kobj - mkobj_offset img).

(** [module.name] *)
Definition module_name (img : Image) (m : module) : unicode :=
  default [] (module_names img !! module_offset m).

(** What the renderer has been told to print. *)
Inductive output :=
| table_header (columns : list (string * string * string))
| table_row (module_addr : module) (name : unicode) (refcount : Z)
    (known : bool).

(** The renderer: the table written so far.  [renderer.table_header] and
    [renderer.table_row] append to it. *)
Abbreviation Renderer := (list output).

(** [get_kset_modules]: the kobjects of the kset that have a name. *)
Definition get_kset_modules (img : Image) : list kobject :=
  filter (λ kobj, name_truthy kobj = true) (kset_entries img).

(** One turn of the loop of [render]. *)
Definition render_kobj (img : Image) (modules : gset module)
    (renderer : Renderer) (kobj : kobject) : Renderer :=
  let name := name_deref img kobj in
  let ref_count := kobj_refcount kobj in
  if ref_count <? 3 then renderer
  else
    let container_module := container_of img kobj in
    renderer ++ [table_row container_module
                   (module_name img container_module)
                   ref_count
                   (bool_decide (container_module ∈ modules))].

Definition header : output :=
  table_header [("Module", "module_addr", "[addrpad]");
                ("Module Name", "module", "30");
                ("Ref Count", "refcount", "^10");
                ("Known", "known", String.EmptyString)].

(** [CheckModules.render] *)
Definition render (img : Image) (renderer : Renderer) : Renderer :=
  let renderer := renderer ++ [header] in
  let modules : gset module := list_to_set (module_list img) in
  foldl (render_kobj img modules) renderer (get_kset_modules img).

(** The rows of a table. *)
Definition rows (r : Renderer) : list (module * unicode * Z * bool) :=
  omap (λ x, match x with
             | table_row m n c k => Some (m, n, c, k)
             | table_header _ => None
             end) r.

(** The table of one run, from an empty renderer. *)
Definition report (img : Image) : Renderer := render img [].

(** The row of a kobject that passes both tests. *)
Definition row_of (img : Image) (kobj : kobject)
    : module * unicode * Z * bool :=
  let container_module := container_of img kobj in
  (container_module, module_name img container_module, kobj_refcount kobj,
   bool_decide (container_module ∈ module_list img)).

(** The kset of the scenario: three kobjects with reference counts 1, 4
    and 5, embedded at offset 0x30 of the modules at 0x1000, 0x2000 and
    0x3000, which are named by the empty string, "mod_a" and "mod_b".  [name0] is the name
    pointer of the first: null, or the address of an empty string. *)
Definition scenario_kset (name0 : Z) : list kobject :=
  [mkKobject 0x1030 name0 1;
   mkKobject 0x2030 0x5000 4;
   mkKobject 0x3030 0x5010 5].

Definition scenario_strings : gmap Z unicode :=
  list_to_map [(0x5000, u "mod_a"); (0x5010, u "mod_b"); (0x5020, [])].

Definition scenario_names : gmap Z unicode :=
  list_to_map [(0x1000, []); (0x2000, u "mod_a"); (0x3000, u "mod_b");
               (0x4000, u "mod_b")].

(** The scenario: the module list holds only the module "mod_a". *)
Definition scenario (name0 : Z) : Image :=
  mkImage (scenario_kset name0) scenario_strings scenario_names 0x30
          [mkModule 0x2000].

(** The same with a second module in the list, at 0x4000, that is also
    named "mod_b". *)
Definition scenario_clash (name0 : Z) : Image :=
  mkImage (scenario_kset name0) scenario_strings scenario_names 0x30
          [mkModule 0x2000; mkModule 0x4000].

(** A row without its last column. *)
Definition found (row : module * unicode * Z * bool) : module * unicode * Z :=
  row.1.

End check_modules.

(** * Properties *)

(** ** Orders and sorting *)

Global Instance Z_leb_order : BoolOrder Z.leb.
Proof. split; intros; lia. Qed.

Lemma unicode_leb_total (a b : unicode) :
  unicode_leb a b = true ∨ unicode_leb b a = true.
Proof.
  revert b. induction a as [|x a IH]; intros [|y b]; simpl; auto.
  destruct (N.ltb_spec x y), (N.ltb_spec y x); auto; try lia.
  assert (x = y) as -> by lia. rewrite N.eqb_refl. apply IH.
Qed.

Lemma unicode_leb_trans (a b c : unicode) :
  unicode_leb a b = true → unicode_leb b c = true → unicode_leb a c = true.
Proof.
  revert b c. induction a as [|x a IH]; intros [|y b] [|z c]; simpl; auto;
    try discriminate.
  destruct (N.ltb_spec x y), (N.ltb_spec y z), (N.ltb_spec x z); auto;
    try lia;
    destruct (N.eqb_spec x y), (N.eqb_spec y z), (N.eqb_spec x z);
    try discriminate; try lia; eauto.
Qed.

Lemma unicode_leb_antisym (a b : unicode) :
  unicode_leb a b = true → unicode_leb b a = true → a = b.
Proof.
  revert b. induction a as [|x a IH]; intros [|y b]; simpl; auto;
    try discriminate.
  destruct (N.ltb_spec x y), (N.ltb_spec y x); try lia;
    destruct (N.eqb_spec x y), (N.eqb_spec y x);
    try discriminate; try lia.
  intros. f_equal; auto.
Qed.

Global Instance unicode_leb_order : BoolOrder unicode_leb.
Proof.
  split; eauto using unicode_leb_total, unicode_leb_trans,
    unicode_leb_antisym.
Qed.

Global Instance tuple_leb_order {A B} `{EqDecision A}
    (leA : A → A → bool) (leB : B → B → bool)
    `{!BoolOrder leA, !BoolOrder leB} :
  BoolOrder (tuple_leb leA leB).
Proof.
  split; unfold tuple_leb.
  - intros [a1 b1] [a2 b2]; simpl.
    destruct (decide (a1 = a2)) as [->|Hne].
    + rewrite decide_True by done. apply bo_total.
    + rewrite decide_False by congruence. apply bo_total.
  - intros [a1 b1] [a2 b2] [a3 b3]; simpl.
    destruct (decide (a1 = a2)) as [->|H12].
    { destruct (decide (a2 = a3)) as [->|H23]; eauto using bo_trans. }
    destruct (decide (a2 = a3)) as [->|H23].
    { rewrite decide_False by done. done. }
    intros H1 H2. destruct (decide (a1 = a3)) as [->|H13].
    + destruct H12. by apply (bo_antisym (le:=leA)).
    + by apply (bo_trans (le:=leA)) with a2.
  - intros [a1 b1] [a2 b2]; simpl.
    destruct (decide (a1 = a2)) as [->|Hne].
    + rewrite decide_True by done. intros. f_equal.
      by apply (bo_antisym (le:=leB)).
    + rewrite decide_False by congruence. intros H1 H2.
      destruct Hne. by apply (bo_antisym (le:=leA)).
Qed.

Section le_of.
Context {A} (le : A → A → bool) `{!BoolOrder le}.

Global Instance le_of_total : Total (le_of le).
Proof.
  intros x y. unfold le_of.
  destruct (bo_total (le:=le) x y) as [->| ->]; simpl; auto.
Qed.

Global Instance le_of_trans : Transitive (le_of le).
Proof.
  intros x y z. unfold le_of. rewrite !Is_true_true. apply bo_trans.
Qed.

Global Instance le_of_antisym : AntiSymm (=) (le_of le).
Proof.
  intros x y. unfold le_of. rewrite !Is_true_true. apply bo_antisym.
Qed.

Lemma sorted_Permutation (l : list A) : sorted le l ≡ₚ l.
Proof. apply merge_sort_Permutation. Qed.

Lemma sorted_StronglySorted (l : list A) :
  StronglySorted (le_of le) (sorted le l).
Proof. apply StronglySorted_merge_sort; apply _. Qed.

End le_of.

(** The names of any selection of sorted dictionary items are in strictly
    increasing order. *)
Lemma sorted_items_names (P : unicode * Z → Prop) `{∀ x, Decision (P x)}
    (l : list (unicode * Z)) :
  StronglySorted (le_of item_leb) l → NoDup l.*1 →
  StronglySorted unicode_lt (filter P l).*1.
Proof.
  induction 1 as [|x l Hs IH Hall]; intros Hnd; [constructor|].
  rewrite fmap_cons in Hnd. apply NoDup_cons in Hnd as [Hx Hnd].
  rewrite filter_cons. destruct (decide (P x)); [|by auto].
  rewrite fmap_cons. constructor; [by auto|].
  apply Forall_fmap, Forall_forall. intros y Hy.
  apply list_elem_of_filter in Hy as [_ Hy].
  rewrite Forall_forall in Hall. specialize (Hall y Hy).
  assert (x.1 ≠ y.1) as Hne.
  { intros Heq. apply Hx. rewrite Heq. by apply list_elem_of_fmap_2. }
  split; [|done].
  unfold le_of, item_leb, tuple_leb in Hall.
  rewrite decide_False in Hall by done. by apply Is_true_true.
Qed.

Global Instance key_leb_order : BoolOrder key_leb.
Proof.
  split.
  - intros [m|r] [n|r']; simpl; auto; [lia|apply unicode_leb_total].
  - intros [m|r] [n|r'] [k|r'']; simpl; try done; [lia|].
    apply unicode_leb_trans.
  - intros [m|r] [n|r']; simpl; try done.
    + intros. f_equal. lia.
    + intros. f_equal. by apply unicode_leb_antisym.
Qed.


(** The fields are formatted when every key is a number, and then line by
    line. *)
Lemma format_fields_Ok (w : Z) (fields : list field) (lines : list unicode) :
  format_fields w fields = Ok lines
  ↔ Forall2 (λ (f : field) line, ∃ n,
               f.1.1 = KInt n
               ∧ line = u "  0x" ++ format_02X n ++ u " " ++ f.1.2
                          ++ spaces (w - len f.1.2) ++ u " " ++ f.2)
            fields lines.
Proof.
  split.
  - revert lines. induction fields as [|[[key k] v] fields IH];
      intros lines; simpl.
    { intros [= <-]. constructor. }
    destruct key as [n|r]; [|done]. simpl.
    destruct (format_fields w fields) as [ls|e]; [|done]. simpl.
    intros [= <-]. constructor; [by exists n|by apply IH].
  - induction 1 as [|[[key k] v] line fields lines (n & Hkey & ->) _ IH];
      simpl; [done|].
    simpl in Hkey. subst key. simpl. by rewrite IH.
Qed.


Lemma format_fields_no_NoneObject (w : Z) (fields : list field) :
  (∀ f reason, f ∈ fields → f.1.1 ≠ KNoneObject reason) →
  ∃ lines, format_fields w fields = Ok lines.
Proof.
  induction fields as [|[[key k] v] fields IH]; intros Hkeys; simpl.
  { by eexists. }
  destruct key as [n|r].
  - destruct IH as [lines ->].
    { intros f reason Hf. apply Hkeys. by right. }
    simpl. by eexists.
  - destruct (Hkeys (KNoneObject r, k, v) r); [left|done].
Qed.

(** ** Text lemmas *)

Lemma split_head_before (sep : N) (pre post : unicode) :
  sep ∉ pre → head (split sep (pre ++ sep :: post)) = Some pre.
Proof.
  induction pre as [|c pre IH]; intros Hnotin; simpl.
  - by rewrite decide_True.
  - apply not_elem_of_cons in Hnotin as [Hne Hnotin].
    rewrite decide_False by done.
    specialize (IH Hnotin).
    destruct (split sep (pre ++ sep :: post)) as [|seg segs]; simpl in *;
      congruence.
Qed.

Lemma split_absent (sep : N) (s : unicode) : sep ∉ s → split sep s = [s].
Proof.
  induction s as [|c s IH]; intros Hnotin; simpl; [done|].
  apply not_elem_of_cons in Hnotin as [Hne Hnotin].
  rewrite decide_False by done. by rewrite IH.
Qed.

Lemma splitlines_one_line (s : unicode) :
  s ≠ [] → LF ∉ s → splitlines s = [s].
Proof.
  intros Hne Hlf. unfold splitlines. rewrite split_absent by done.
  destruct s; [done|]. done.
Qed.

(** ** The interpreter *)

Section Renderers_facts.
Variable repr : Obj → unicode.
Variable format_address : Z → unicode.
Variable new_table : list ColumnSpec → result TextTable.
Variable get_row : TextTable → list Obj → result Cell.
Variable image : gmap Z Obj.

Local Abbreviation send := (send repr format_address new_table get_row image).
Local Abbreviation body := (body repr format_address new_table get_row image).
Local Abbreviation new := (new new_table).

(** A renderer made without a [columns] argument: construction cannot
    fail and leaves no table. *)
Lemma new_plain (c : cls) : new c = Ok (mkRenderer c None None).
Proof. by destruct c. Qed.

(** A function body that returned keeps its result when the calls it
    makes are given more room. *)
Lemma body_mono (send1 send2 : sender) self f target o r :
  (∀ self' name t o' r',
      send1 self' name t o' = Some r' → send2 self' name t o' = Some r') →
  body send1 self f target o = Some r →
  body send2 self f target o = Some r.
Proof.
  intros Hsend. destruct f; simpl; try done; try by apply Hsend.
  - destruct (lookup_attr _ _); [apply Hsend|done].
  - destruct (send1 _ _ _ _) as [[full|e]|] eqn:E; [| |done];
      by rewrite (Hsend _ _ _ _ _ E).
  - destruct (deref image target) as [t|]; [|done].
    destruct (is_None t); [done|].
    destruct (new _); [apply Hsend|done].
  - destruct (table self); [done|apply Hsend].
Qed.

Lemma send_S depth self name target o r :
  send depth self name target o = Some r →
  send (S depth) self name target o = Some r.
Proof.
  revert self name target o r.
  induction depth as [|d IH]; intros self name target o r; [done|].
  intros H. simpl in H |- *.
  destruct (lookup_attr _ _); [|done].
  eapply body_mono; [|exact H]. apply IH.
Qed.

Lemma send_mono d d' self name target o r :
  (d ≤ d')%nat →
  send d self name target o = Some r →
  send d' self name target o = Some r.
Proof. induction 1; auto using send_S. Qed.

(** A call has one result, whatever depth it is given. *)
Lemma send_functional d1 d2 self name target o r1 r2 :
  send d1 self name target o = Some r1 →
  send d2 self name target o = Some r2 →
  r1 = r2.
Proof.
  intros H1 H2.
  apply (send_mono _ (d1 `max` d2)) in H1; [|lia].
  apply (send_mono _ (d1 `max` d2)) in H2; [|lia].
  congruence.
Qed.

End Renderers_facts.

(** ** Method resolution *)

Lemma send_unfold repr fa nt gr image depth self name target o :
  send repr fa nt gr image (S depth) self name target o =
  match lookup_attr (r_cls self) name with
  | None => Some (Raise AttributeError)
  | Some f => body repr fa nt gr image
                (send repr fa nt gr image depth) self f target o
  end.
Proof. reflexivity. Qed.

(** Evaluate the attribute lookups and registry resolutions of the goal. *)
Ltac resolve :=
  repeat match goal with
  | |- context [lookup_attr ?c ?n] =>
      let r := eval vm_compute in (lookup_attr c n) in
      replace (lookup_attr c n) with r by (vm_compute; reflexivity)
  | |- context [ForTarget ?t] =>
      let r := eval vm_compute in (ForTarget t) in
      replace (ForTarget t) with r by (vm_compute; reflexivity)
  end.

Ltac call := rewrite send_unfold; cbn [r_cls]; resolve; cbn [body].

(** Membership in a list that is written out. *)
Ltac in_list := by repeat constructor.

Lemma ForTarget_NoneObject reason :
  ForTarget (obj.NoneObject reason) = NoneObjectTextRenderer.
Proof. vm_compute. reflexivity. Qed.

Lemma ForTarget_PyNone : ForTarget obj.PyNone = NoneTextRenderer.
Proof. vm_compute. reflexivity. Qed.

Section Renderers_claims.
Variable repr : Obj → unicode.
Variable format_address : Z → unicode.
Variable new_table : list ColumnSpec → result TextTable.
Variable get_row : TextTable → list Obj → result Cell.
Variable image : gmap Z Obj.

Local Abbreviation send := (send repr format_address new_table get_row image).
Local Abbreviation render :=
  (render repr format_address new_table get_row image).
Local Abbreviation returns :=
  (returns repr format_address new_table get_row image).

(** The row render of the two null renderers ignores the style and the
    value it is given. *)
Lemma NoneObject_render_row_dash c cols tbl depth target o :
  c = NoneObjectTextRenderer ∨ c = NoneTextRenderer →
  send (S depth) (mkRenderer c cols tbl) "render_row" target o
  = Some (Ok (cell (u "-"))).
Proof. intros [-> | ->]; by call. Qed.

(** C1: a value that is the null sentinel ([None] or a [NoneObject],
    whatever value it stands for) renders as the cell "-" in every style,
    in particular in the styles full, compact and value. *)
Theorem null_sentinel_renders_dash target s depth :
  is_None target = true →
  render (S depth) target s = Some (Ok (cell (u "-"))).
Proof.
  intros Hnone. unfold render.
  rewrite new_plain.
  destruct target; try discriminate.
  - rewrite ForTarget_PyNone. apply NoneObject_render_row_dash; auto.
  - rewrite ForTarget_NoneObject. apply NoneObject_render_row_dash; auto.
Qed.

(** C10: [FlagsTextRenderer.render_value] raises [AttributeError] on every
    target, the renderer having no attribute [v]; so does the row render
    of a flags value in the style value.  The target is never read. *)
Theorem flags_render_value_raises cols tbl depth target o :
  lookup_attr FlagsTextRenderer "v" = None
  ∧ send (S depth) (mkRenderer FlagsTextRenderer cols tbl)
      "render_value" target o = Some (Raise AttributeError)
  ∧ send (S (S depth)) (mkRenderer FlagsTextRenderer cols tbl)
      "render_row" target (mkOptions (Some "value") (width o))
    = Some (Raise AttributeError)
  ∧ ∀ off value maskmap,
      render (S (S depth)) (obj.Flags off value maskmap) "value"
      = Some (Raise AttributeError).
Proof.
  split; [by vm_compute|]. split; [by call|].
  assert (∀ w c t, send (S (S depth)) (mkRenderer FlagsTextRenderer c t)
             "render_row" target (mkOptions (Some "value") w)
           = Some (Raise AttributeError)) as Hrow.
  { intros. call. cbn [style from_option id r_cls]. resolve.
    simpl (_ +:+ _). by call. }
  split; [apply Hrow|].
  intros. unfold render. rewrite new_plain.
  resolve. call. cbn [style from_option id r_cls]. resolve.
  simpl (_ +:+ _). by call.
Qed.

(** C8: the full render of a string that holds a NUL is the text before
    the first NUL, what follows is dropped; the value and compact renders
    are the same function, and the row render in these three styles
    gives the same cell. *)
Theorem string_render_stops_at_NUL off pre post cols tbl depth o :
  NUL ∉ pre →
  let target := obj.String off (pre ++ NUL :: post) in
  let self := mkRenderer StringTextRenderer cols tbl in
  send (S depth) self "render_full" target o = Some (Ok (cell pre))
  ∧ send (S depth) self "render_value" target o = Some (Ok (cell pre))
  ∧ send (S depth) self "render_compact" target o = Some (Ok (cell pre))
  ∧ lookup_attr StringTextRenderer "render_value"
    = lookup_attr StringTextRenderer "render_full"
  ∧ lookup_attr StringTextRenderer "render_compact"
    = lookup_attr StringTextRenderer "render_full"
  ∧ (∀ s, s ∈ ["full"; "compact"; "value"] →
          render (S (S depth)) target s = Some (Ok (cell pre))).
Proof.
  intros Hpre target self.
  assert (∀ c t d name o',
            name ∈ ["render_full"; "render_value"; "render_compact"] →
            send (S d) (mkRenderer StringTextRenderer c t) name target o'
            = Some (Ok (cell pre))) as H.
  { intros c t d name o' Hname. subst target.
    repeat (apply elem_of_cons in Hname as [->|Hname]);
      [| | |by apply elem_of_nil in Hname];
      call; unfold SmartUnicode; cbn [unicode_of];
      by rewrite split_head_before. }
  split; [apply H; in_list|]. split; [apply H; in_list|].
  split; [apply H; in_list|].
  split; [vm_compute; reflexivity|]. split; [vm_compute; reflexivity|].
  intros s Hs. unfold render. rewrite new_plain.
  replace (ForTarget target) with StringTextRenderer
    by (vm_compute; reflexivity).
  repeat (apply elem_of_cons in Hs as [->|Hs]);
    [| | |by apply elem_of_nil in Hs];
    call; cbn [style from_option id r_cls]; resolve; simpl (_ +:+ _);
    apply H; in_list.
Qed.

(** C3: when a pointer dereferences to a value that is not the null
    sentinel, its full render returns exactly what the full render of the
    renderer resolved for that value returns on that value. *)
Theorem pointer_full_render_delegates ptr target_obj cols tbl o r :
  deref image ptr = Ok target_obj →
  is_None target_obj = false →
  returns (mkRenderer PointerTextRenderer cols tbl) "render_full" ptr o r
  ↔ returns (mkRenderer (ForTarget target_obj) None None)
            "render_full" target_obj no_options r.
Proof.
  intros Hderef Hsome. unfold returns. split.
  - intros [[|d] H]; [done|]. exists d. revert H. call.
    by rewrite Hderef, Hsome, new_plain.
  - intros [d H]. exists (S d). call.
    by rewrite Hderef, Hsome, new_plain.
Qed.

(** The names the full render of a flags value lists. *)
Lemma flag_names_spec (value : Z) (maskmap : gmap unicode Z) name :
  name ∈ flag_names value maskmap
  ↔ ∃ mask, maskmap !! name = Some mask ∧ Z.land value mask ≠ 0.
Proof.
  unfold flag_names. rewrite list_elem_of_fmap. split.
  - intros [[k mask] [-> [Hmask Hin]%list_elem_of_filter]].
    exists mask. split; [|done].
    unfold sorted in Hin. rewrite merge_sort_Permutation in Hin.
    by apply elem_of_map_to_list in Hin.
  - intros [mask [Hlook Hmask]]. exists (name, mask). split; [done|].
    apply list_elem_of_filter. split; [done|].
    unfold sorted. rewrite merge_sort_Permutation.
    by apply elem_of_map_to_list.
Qed.

Lemma flag_names_sorted (value : Z) (maskmap : gmap unicode Z) :
  StronglySorted unicode_lt (flag_names value maskmap).
Proof.
  unfold flag_names. apply sorted_items_names.
  - apply sorted_StronglySorted, _.
  - rewrite sorted_Permutation. apply NoDup_fst_map_to_list.
Qed.

(** C6: the full render of a flags value is its flag names joined by
    ", ", in increasing order of name; a name is listed exactly when it
    is a name of the flag definition whose mask has a bit in common with
    the value, so a bit without a name shows nowhere. *)
Theorem flags_full_render off value maskmap cols tbl depth o :
  let names := flag_names value maskmap in
  send (S depth) (mkRenderer FlagsTextRenderer cols tbl) "render_full"
       (obj.Flags off value maskmap) o
  = Some (Ok (cell (join (u ", ") names)))
  ∧ StronglySorted unicode_lt names
  ∧ ∀ name, name ∈ names
      ↔ ∃ mask, maskmap !! name = Some mask ∧ Z.land value mask ≠ 0.
Proof.
  intros names. split; [by call|].
  split; [apply flag_names_sorted|apply flag_names_spec].
Qed.

(** The compact render of a flags value, from its full render. *)
Lemma flags_render_compact_eq off value maskmap cols tbl depth o :
  send (S (S depth)) (mkRenderer FlagsTextRenderer cols tbl)
       "render_compact" (obj.Flags off value maskmap) o
  = Some (Ok (cell
      match splitlines (join (u ", ") (flag_names value maskmap)) with
      | [] => u "-"
      | line :: _ => elide line
      end)).
Proof.
  call. call. unfold lines. cbn [cell cell_value].
  by destruct (splitlines _).
Qed.

(** C7, amended: when no flag name is to be shown the full render is empty
    and the compact render is "-"; otherwise, the full render being one
    line, the compact render is its first 39 characters followed by one
    ellipsis when it is longer than 40 characters, and the full render
    itself when it is not. *)
Theorem flags_compact_render off value maskmap cols tbl depth o :
  let full := join (u ", ") (flag_names value maskmap) in
  let compact :=
    send (S (S depth)) (mkRenderer FlagsTextRenderer cols tbl)
         "render_compact" (obj.Flags off value maskmap) o in
  (full = [] → compact = Some (Ok (cell (u "-"))))
  ∧ (full ≠ [] → LF ∉ full → (40 < length full)%nat →
     compact = Some (Ok (cell (take 39 full ++ [ELLIPSIS]))))
  ∧ (full ≠ [] → LF ∉ full → (length full ≤ 40)%nat →
     compact = Some (Ok (cell full))).
Proof.
  intros full compact. subst compact.
  rewrite flags_render_compact_eq. fold full. repeat split.
  - by intros ->.
  - intros Hne Hlf Hlen. rewrite splitlines_one_line by done.
    unfold elide. by rewrite (proj2 (Z.ltb_lt _ _)) by lia.
  - intros Hne Hlf Hlen. rewrite splitlines_one_line by done.
    unfold elide. by rewrite (proj2 (Z.ltb_ge _ _)) by lia.
Qed.

(** The key of a member is a [NoneObject] exactly when the member is
    such an object in both its forms. *)
Lemma struct_field_NoneObject off m reason :
  (struct_field repr off m).1.1 = KNoneObject reason
  ↔ is_None (obj.m_attr m) = true ∧ obj.m_raw m = obj.NoneObject reason.
Proof.
  unfold struct_field. cbn [fst].
  destruct (is_None (obj.m_attr m)) eqn:Hnone.
  - destruct (obj.m_raw m); simpl; split; try done;
      try (by intros [_ [=]]); try (by intros [= ->]);
      by intros [_ [= ->]].
  - destruct (obj.m_attr m); simpl in *; split; try done; by intros [[=] _].
Qed.


(** The full render of a struct none of whose members is a [NoneObject]
    in both forms: the lines it is made of. *)
Lemma struct_full_render_Ok off ty members cols tbl depth o :
  (∀ m reason, m ∈ members → is_None (obj.m_attr m) = true →
               obj.m_raw m ≠ obj.NoneObject reason) →
  ∃ lines,
    format_fields (width_name members) (struct_fields repr off members)
    = Ok lines
    ∧ send (S depth) (mkRenderer StructTextRenderer cols tbl) "render_full"
           (obj.Struct off ty members) o
      = Some (Ok (cell (repr (obj.Struct off ty members) ++ [LF]
                        ++ join [LF] lines ++ [LF]))).
Proof.
  intros Hmembers.
  destruct (format_fields_no_NoneObject (width_name members)
              (struct_fields repr off members)) as [lines Hlines].
  { intros f reason Hf Hkey. unfold struct_fields in Hf.
    rewrite sorted_Permutation in Hf by apply _.
    apply list_elem_of_fmap in Hf as (m & -> & Hm).
    apply struct_field_NoneObject in Hkey as [Hnone Hraw].
    by apply (Hmembers m reason). }
  exists lines. split; [done|]. call. rewrite Hlines. simpl.
  by rewrite <- !(assoc_L (++)).
Qed.


(** A column without a name of accessor stops the loop of the compact
    render with [ValueError]. *)
Lemma column_values_ValueError target pre col post :
  Forall (λ c : ColumnSpec, ∃ cname a,
            c !! "cname" = Some cname ∧ cname ≠ []
            ∧ getattr target cname = Ok a) pre →
  (col !! "cname" = None ∨ col !! "cname" = Some []) →
  column_values target (pre ++ col :: post) = Raise ValueError.
Proof.
  intros Hpre Hcol. induction Hpre as [|c pre Hc Hpre IH]; simpl.
  - by destruct Hcol as [-> | ->].
  - destruct Hc as (cname & a & -> & Hne & Hget).
    destruct cname as [|ch cname]; [done|].
    rewrite Hget. simpl. by rewrite IH.
Qed.

(** C2, amended: the constructor of a struct renderer does not examine its
    column specification: it fails only when the construction of the table
    fails.  A column entry without a "cname" is reported by the compact
    render, which raises [ValueError] for every instance whose earlier
    columns could be read. *)
Theorem struct_columns_checked_per_row :
  (∀ kw e, StructTextRenderer_init new_table kw = Raise e →
           ∃ cols, kw = Some cols ∧ cols ≠ []
                   ∧ new_table cols = Raise e)
  ∧ (∀ self target pre col post depth o,
       StructTextRenderer_init new_table (Some (pre ++ col :: post))
       = Ok self →
       Forall (λ c : ColumnSpec, ∃ cname a,
                 c !! "cname" = Some cname ∧ cname ≠ []
                 ∧ getattr target cname = Ok a) pre →
       (col !! "cname" = None ∨ col !! "cname" = Some []) →
       send (S depth) self "render_compact" target o
       = Some (Raise ValueError)).
Proof.
  split.
  - intros [[|c cs]|] e; simpl; try done.
    destruct (new_table (c :: cs)) eqn:E; simpl; [done|].
    intros [= ->]. by exists (c :: cs).
  - intros self target pre col post depth o Hinit Hpre Hcol.
    unfold StructTextRenderer_init in Hinit.
    destruct (pre ++ col :: post) as [|c cs] eqn:Ecols.
    { by destruct pre. }
    destruct (new_table (c :: cs)) as [t|]; simpl in Hinit; [|done].
    injection Hinit as <-. call. cbn [table columns].
    rewrite <- Ecols. by rewrite column_values_ValueError.
Qed.

End Renderers_claims.

(** ** Examples of renders *)

Example flags_full_example :
  sample.render 2 (obj.Flags 0 5 sample.maskmap) "full"
  = Some (Ok (cell (u "EXEC, READ"))).
Proof. vm_compute. reflexivity. Qed.

Example struct_full_example :
  sample.render 2 sample.task "full"
  = Some (Ok (cell (u "<16>" ++ [LF]
                    ++ u "  0x02 comm <init>" ++ [LF]
                    ++ u "  0x08 pid  <3>" ++ [LF]))).
Proof. vm_compute. reflexivity. Qed.

Example pointer_cycle_example :
  ∀ depth, sample.render depth (obj.Pointer 0 200 (u "Pointer")) "full"
           = None.
Proof.
  assert (∀ off, deref sample.image (obj.Pointer off 200 (u "Pointer"))
                 = Ok (obj.Pointer 200 200 (u "Pointer"))) as Hderef
    by (intros; vm_compute; reflexivity).
  assert (∀ depth off o, sample.send depth
            (mkRenderer PointerTextRenderer None None) "render_full"
            (obj.Pointer off 200 (u "Pointer")) o = None) as Hloop.
  { induction depth as [|d IH]; intros off o; [done|].
    unfold sample.send in *. call.
    rewrite Hderef. cbn [is_None]. rewrite new_plain. resolve. apply IH. }
  intros depth. unfold sample.render, render. rewrite new_plain. resolve.
  destruct depth as [|d]; [done|].
  call. cbn [style from_option id r_cls]. resolve. simpl (_ +:+ _).
  apply Hloop.
Qed.

(** ** The claims on concrete values *)

Lemma null_sentinel_renders_dash_witness :
  is_None (obj.NoneObject (u "unreadable")) = true
  ∧ sample.render 1 (obj.NoneObject (u "unreadable")) "compact"
    = Some (Ok (cell (u "-"))).
Proof.
  split; [reflexivity|].
  apply (null_sentinel_renders_dash sample.repr sample.format_address
           sample.new_table sample.get_row sample.image
           (obj.NoneObject (u "unreadable")) "compact" 0%nat).
  reflexivity.
Defined.

Lemma string_render_stops_at_NUL_witness :
  (NUL ∉ u "abc")
  ∧ sample.send 1 (mkRenderer StringTextRenderer None None) "render_full"
      (obj.String 0 (u "abc" ++ NUL :: u "def")) no_options
    = Some (Ok (cell (u "abc"))).
Proof.
  assert (NUL ∉ u "abc") as Hpre.
  { apply (bool_decide_unpack _). vm_compute. reflexivity. }
  split; [exact Hpre|].
  exact (proj1 (string_render_stops_at_NUL sample.repr sample.format_address
                  sample.new_table sample.get_row sample.image
                  0 (u "abc") (u "def") None None 0%nat no_options Hpre)).
Defined.

Lemma pointer_full_render_delegates_witness :
  deref sample.image (obj.Pointer 0 300 (u "Flags"))
  = Ok (obj.Flags 300 5 sample.maskmap)
  ∧ is_None (obj.Flags 300 5 sample.maskmap) = false
  ∧ (returns sample.repr sample.format_address sample.new_table
       sample.get_row sample.image
       (mkRenderer PointerTextRenderer None None) "render_full"
       (obj.Pointer 0 300 (u "Flags")) no_options
       (Ok (cell (u "EXEC, READ")))
     ↔ returns sample.repr sample.format_address sample.new_table
         sample.get_row sample.image
         (mkRenderer (ForTarget (obj.Flags 300 5 sample.maskmap)) None None)
         "render_full" (obj.Flags 300 5 sample.maskmap) no_options
         (Ok (cell (u "EXEC, READ")))).
Proof.
  assert (deref sample.image (obj.Pointer 0 300 (u "Flags"))
          = Ok (obj.Flags 300 5 sample.maskmap)) as Hderef
    by (vm_compute; reflexivity).
  split; [exact Hderef|]. split; [reflexivity|].
  apply (pointer_full_render_delegates sample.repr sample.format_address
           sample.new_table sample.get_row sample.image
           _ _ None None no_options _ Hderef).
  reflexivity.
Defined.

(** C7, as stated, fails on a flags value with no named bit set: its full
    render is the empty string, well within 40 characters, and its compact
    render is "-". *)
Lemma flags_compact_of_empty_full :
  sample.send 1 (mkRenderer FlagsTextRenderer None None) "render_full"
    (obj.Flags 0 0 sample.maskmap) no_options
  = Some (Ok (cell []))
  ∧ (length ([] : unicode) ≤ 40)%nat
  ∧ sample.send 2 (mkRenderer FlagsTextRenderer None None) "render_compact"
      (obj.Flags 0 0 sample.maskmap) no_options
    = Some (Ok (cell (u "-")))
  ∧ cell (u "-") ≠ cell [].
Proof.
  split; [vm_compute; reflexivity|]. split; [simpl; lia|].
  split; [vm_compute; reflexivity|]. discriminate.
Defined.

Lemma flags_compact_render_witness :
  sample.send 2 (mkRenderer FlagsTextRenderer None None) "render_compact"
    (obj.Flags 0 0 sample.maskmap) no_options
  = Some (Ok (cell (u "-")))
  ∧ sample.send 2 (mkRenderer FlagsTextRenderer None None) "render_compact"
      (obj.Flags 0 7 sample.long_maskmap) no_options
    = Some (Ok (cell (u "PAGE_EXECUTE_READ, PAGE_GUARD, PAGE_NOC"
                      ++ [ELLIPSIS])))
  ∧ sample.send 2 (mkRenderer FlagsTextRenderer None None) "render_compact"
      (obj.Flags 0 5 sample.maskmap) no_options
    = Some (Ok (cell (u "EXEC, READ"))).
Proof.
  split; [|split].
  - apply (proj1 (flags_compact_render sample.repr sample.format_address
                    sample.new_table sample.get_row sample.image
                    0 0 sample.maskmap None None 0%nat no_options)).
    vm_compute. reflexivity.
  - apply (proj1 (proj2 (flags_compact_render sample.repr
                           sample.format_address sample.new_table
                           sample.get_row sample.image
                           0 7 sample.long_maskmap None None 0%nat no_options))).
    + vm_compute. discriminate.
    + apply (bool_decide_unpack _). vm_compute. reflexivity.
    + vm_compute. lia.
  - apply (proj2 (proj2 (flags_compact_render sample.repr
                           sample.format_address sample.new_table
                           sample.get_row sample.image
                           0 5 sample.maskmap None None 0%nat no_options))).
    + vm_compute. discriminate.
    + apply (bool_decide_unpack _). vm_compute. reflexivity.
    + vm_compute. lia.
Defined.

(** C2, as stated, fails on a column entry that has no "cname": the
    renderer is constructed without complaint, and the compact render of an
    instance raises [ValueError]. *)
Lemma struct_column_error_at_render :
  ∃ self,
    StructTextRenderer_init sample.new_table
      (Some [{[ "name" := u "Pid" ]}]) = Ok self
    ∧ sample.send 1 self "render_compact" sample.task no_options
      = Some (Raise ValueError).
Proof.
  eexists. split; [reflexivity|]. vm_compute. reflexivity.
Defined.

Lemma struct_columns_checked_per_row_witness :
  sample.send 1
    (mkRenderer StructTextRenderer
       (Some [{[ "cname" := u "pid" ]}; {[ "name" := u "Comm" ]}])
       (Some (mkTextTable
                [{[ "cname" := u "pid" ]}; {[ "name" := u "Comm" ]}])))
    "render_compact" sample.task no_options
  = Some (Raise ValueError).
Proof.
  apply (proj2 (struct_columns_checked_per_row sample.repr
                  sample.format_address sample.new_table sample.get_row
                  sample.image)
           _ sample.task [{[ "cname" := u "pid" ]}] {[ "name" := u "Comm" ]}
           [] 0%nat no_options).
  - reflexivity.
  - constructor; [|constructor].
    exists (u "pid"), (obj.NativeType 24 3).
    split; [vm_compute; reflexivity|].
    split; [discriminate|vm_compute; reflexivity].
  - left. vm_compute. reflexivity.
Defined.


(** ** check_modules *)

Section check_modules_facts.
Import check_modules.

Implicit Types (img : Image) (kobj : kobject) (r : Renderer).

(** A turn of the loop appends to the table and reads nothing of it. *)
Lemma render_kobj_app img modules r r' kobj :
  render_kobj img modules (r ++ r') kobj
  = r ++ render_kobj img modules r' kobj.
Proof.
  unfold render_kobj. destruct (_ <? 3); [done|]. by rewrite (assoc_L (++)).
Qed.

Lemma foldl_render_kobj_app img modules r r' (l : list kobject) :
  foldl (render_kobj img modules) (r ++ r') l
  = r ++ foldl (render_kobj img modules) r' l.
Proof.
  revert r'. induction l as [|kobj l IH]; intros r'; simpl; [done|].
  by rewrite render_kobj_app, IH.
Qed.

(** A run appends its report to whatever table it is given. *)
Lemma render_appends img r : render img r = r ++ report img.
Proof.
  unfold report, render. rewrite app_nil_l.
  apply foldl_render_kobj_app.
Qed.

Lemma render_kobj_skip img modules r kobj :
  kobj_refcount kobj < 3 → render_kobj img modules r kobj = r.
Proof.
  intros Hlt. unfold render_kobj.
  by rewrite (proj2 (Z.ltb_lt _ _)) by done.
Qed.

Lemma rows_app r r' : rows (r ++ r') = rows r ++ rows r'.
Proof. unfold rows. apply omap_app. Qed.

Lemma rows_foldl img (l : list kobject) r :
  rows (foldl (render_kobj img (list_to_set (module_list img))) r l)
  = rows r ++ (row_of img <$> filter (λ kobj, 3 ≤ kobj_refcount kobj) l).
Proof.
  revert r. induction l as [|kobj l IH]; intros r; simpl.
  { by rewrite app_nil_r. }
  rewrite IH, filter_cons. unfold render_kobj.
  destruct (Z.ltb_spec (kobj_refcount kobj) 3).
  - by rewrite decide_False by lia.
  - rewrite decide_True by lia. rewrite rows_app, <- (assoc_L (++)).
    f_equal. simpl. unfold row_of. do 3 f_equal.
    apply bool_decide_ext. by rewrite elem_of_list_to_set.
Qed.

(** The rows of a run: one for each kobject of the kset that has a name
    and at least three references, in the order of the kset; the flag of a
    row is the membership of the container module in the module list. *)
Lemma rows_report img :
  rows (report img)
  = row_of img <$> filter (λ kobj, 3 ≤ kobj_refcount kobj)
                     (filter (λ kobj, name_truthy kobj = true)
                        (kset_entries img)).
Proof. unfold report, render. by rewrite rows_foldl. Qed.

(** C4: on the kset of the scenario, whether the first entry has a null
    name or an empty one, the report has exactly two rows, mod_a known and
    mod_b not known.  In general an entry without a name and an entry with
    fewer than three references give no row, and the flag tests the
    container module itself: a listed module that is only called mod_b
    does not make mod_b known. *)
Theorem scenario_report :
  (∀ name0,
     rows (report (scenario name0))
     = [(mkModule 0x2000, u "mod_a", 4, true);
        (mkModule 0x3000, u "mod_b", 5, false)])
  ∧ (∀ name0,
       rows (report (scenario_clash name0))
       = [(mkModule 0x2000, u "mod_a", 4, true);
          (mkModule 0x3000, u "mod_b", 5, false)])
  ∧ (∀ img,
       rows (report img)
       = row_of img <$> filter (λ kobj, 3 ≤ kobj_refcount kobj)
                          (filter (λ kobj, name_truthy kobj = true)
                             (kset_entries img))).
Proof.
  split; [|split; [|apply rows_report]].
  - intros name0. rewrite rows_report.
    unfold scenario, scenario_kset. cbn [kset_entries].
    rewrite filter_cons. destruct (decide (name_truthy _ = true)).
    + rewrite filter_cons, decide_False by (simpl; lia).
      vm_compute. reflexivity.
    + vm_compute. reflexivity.
  - intros name0. rewrite rows_report.
    unfold scenario_clash, scenario_kset. cbn [kset_entries].
    rewrite filter_cons. destruct (decide (name_truthy _ = true)).
    + rewrite filter_cons, decide_False by (simpl; lia).
      vm_compute. reflexivity.
    + vm_compute. reflexivity.
Qed.

(** A run appends the same report to any table it is given, so a second
    run over the same image writes the rows of the first again.  The
    table is the only state of a run that is modelled here. *)
Theorem reconciliation_deterministic img r :
  render img r = r ++ report img
  ∧ render img (render img r) = r ++ report img ++ report img
  ∧ rows (render img (render img r))
    = rows r ++ rows (report img) ++ rows (report img).
Proof.
  split; [apply render_appends|].
  assert (render img (render img r) = r ++ report img ++ report img) as H.
  { rewrite (render_appends img (render img r)), render_appends.
    by rewrite <- (assoc_L (++)). }
  split; [done|]. by rewrite H, !rows_app.
Qed.

End check_modules_facts.

(** ** The methods of the null renderers, called directly

    Only the row render is overridden by [NoneObjectTextRenderer]; the
    other methods are those of [BaseObjectTextRenderer].  On a [NoneObject]
    they give "-" as well, through its text; Python's [None] has no [v]
    method, and is only ever rendered through the row render. *)

Example NoneObject_methods_direct :
  ∀ name, name ∈ ["render_full"; "render_compact"; "render_value"] →
    sample.send 2 (mkRenderer NoneObjectTextRenderer None None) name
      (obj.NoneObject (u "unreadable")) no_options
    = Some (Ok (cell (u "-"))).
Proof.
  intros name Hname.
  repeat (apply elem_of_cons in Hname as [->|Hname]);
    [| | |by apply elem_of_nil in Hname]; vm_compute; reflexivity.
Qed.

Example NoneType_render_full_direct :
  sample.send 2 (mkRenderer NoneTextRenderer None None) "render_full"
    obj.PyNone no_options
  = Some (Raise AttributeError).
Proof. vm_compute. reflexivity. Qed.

(** * Further properties of the renderers *)

Lemma ForTarget_Pointer off a ty :
  ForTarget (obj.Pointer off a ty) = PointerTextRenderer.
Proof. vm_compute. reflexivity. Qed.

Section Renderers_more.
Variable repr : Obj → unicode.
Variable format_address : Z → unicode.
Variable new_table : list ColumnSpec → result TextTable.
Variable get_row : TextTable → list Obj → result Cell.
Variable image : gmap Z Obj.

Local Abbreviation send := (send repr format_address new_table get_row image).
Local Abbreviation render :=
  (render repr format_address new_table get_row image).
Local Abbreviation returns :=
  (returns repr format_address new_table get_row image).

(** X1: The label an enumeration shows: the entry of [choices] under the
    decimal text of the value when it is a non-empty text; an entry that is
    the empty text hides the default and gives "UNKNOWN (value)"; without
    an entry the default when it is a non-empty text, "UNKNOWN (value)"
    otherwise.  The compact render is the same function. *)
Theorem enumeration_label off value choices dflt cols tbl depth o :
  let self := mkRenderer EnumerationTextRenderer cols tbl in
  let target := obj.Enumeration off value choices dflt in
  let full := send (S depth) self "render_full" target o in
  let unknown := cell (u "UNKNOWN (" ++ unicode_of_int value ++ u ")") in
  (∀ c label, choices !! unicode_of_int value = Some (c :: label) →
              full = Some (Ok (cell (c :: label))))
  ∧ (choices !! unicode_of_int value = Some [] → full = Some (Ok unknown))
  ∧ (∀ c label, choices !! unicode_of_int value = None →
                dflt = Some (c :: label) →
                full = Some (Ok (cell (c :: label))))
  ∧ (choices !! unicode_of_int value = None →
     dflt = None ∨ dflt = Some [] → full = Some (Ok unknown))
  ∧ send (S depth) self "render_compact" target o = full.
Proof.
  intros self target full unknown. subst full self target.
  split; [|split; [|split; [|split]]].
  - intros c label Hc. call. unfold SmartStr. cbn [unicode_of].
    by rewrite Hc.
  - intros Hc. call. unfold SmartStr, SmartUnicode. cbn [unicode_of].
    by rewrite Hc.
  - intros c label Hc ->. call. unfold SmartStr. cbn [unicode_of].
    by rewrite Hc.
  - intros Hc Hd. call. unfold SmartStr, SmartUnicode. cbn [unicode_of].
    rewrite Hc. by destruct Hd as [-> | ->].
  - call. symmetry. by call.
Qed.

(** X2: A pointer that dereferences to the null sentinel, one to an address
    the image does not hold among them, renders in full as "-": no other
    renderer is asked. *)
Theorem pointer_to_nothing_renders_dash ptr target_obj cols tbl depth o :
  deref image ptr = Ok target_obj →
  is_None target_obj = true →
  send (S depth) (mkRenderer PointerTextRenderer cols tbl) "render_full"
       ptr o
  = Some (Ok (cell (u "-"))).
Proof. intros Hderef Hnone. call. by rewrite Hderef, Hnone. Qed.

(** X3: The full render of a pointer does not bound its recursion: on any set
    of pointers closed under dereferencing (a cycle of pointers) it returns
    at no depth. *)
Theorem pointer_cycle_never_returns (cycle : Obj → Prop) :
  (∀ p, cycle p → ∃ off a ty p',
          p = obj.Pointer off a ty ∧ image !! a = Some p' ∧ cycle p') →
  ∀ p, cycle p →
  ∀ depth o, send depth (mkRenderer PointerTextRenderer None None)
                  "render_full" p o = None.
Proof.
  intros Hclosed p Hp depth. revert p Hp.
  induction depth as [|d IH]; intros p Hp o; [done|].
  destruct (Hclosed p Hp) as (off & a & ty & p' & -> & Ha & Hp').
  call. cbn [deref]. rewrite Ha. cbn [from_option id].
  destruct (Hclosed p' Hp') as (off' & a' & ty' & p'' & -> & _ & _).
  cbn [is_None]. rewrite new_plain, ForTarget_Pointer. by apply IH.
Qed.

(** X5: The value render of a pointer, and of a void pointer, is the address
    render: the formatted address the pointer holds, not the offset it is
    stored at, in a cell of the requested width. *)
Theorem pointer_value_is_address c off a ty cols tbl depth o :
  c = PointerTextRenderer ∨ c = VoidTextRenderer →
  let self := mkRenderer c cols tbl in
  send (S (S depth)) self "render_value" (obj.Pointer off a ty) o
  = Some (Ok (mkCell (format_address a) (width o) []))
  ∧ send (S (S depth)) self "render_value" (obj.Void off a) o
    = Some (Ok (mkCell (format_address a) (width o) []))
  ∧ send (S depth) self "render_address" (obj.Pointer off a ty) o
    = Some (Ok (mkCell (format_address a) (width o) [])).
Proof.
  intros [-> | ->] self; subst self;
    (split; [|split]); call; try done; by call.
Qed.

(** X6: A struct renderer made without columns, or with an empty list of
    columns, has no table, the table constructor is not called, and its
    compact render is the representation of the value. *)
Theorem struct_compact_without_columns kw self target depth o :
  kw = None ∨ kw = Some [] →
  StructTextRenderer_init new_table kw = Ok self →
  table self = None
  ∧ send (S (S depth)) self "render_compact" target o
    = Some (Ok (cell (repr target))).
Proof.
  intros Hkw Hinit.
  assert (self = mkRenderer StructTextRenderer kw None) as ->.
  { destruct Hkw as [-> | ->]; simpl in Hinit; congruence. }
  split; [done|]. call. cbn [table]. by call.
Qed.

(** What the loop over the columns gathers. *)
Lemma column_values_Ok target cols values :
  Forall2 (λ (col : ColumnSpec) a, ∃ cname,
             col !! "cname" = Some cname ∧ cname ≠ []
             ∧ getattr target cname = Ok a) cols values
  ↔ column_values target cols = Ok values.
Proof.
  split.
  - induction 1 as [|col a cols values (cname & Hc & Hne & Hget) _ IH];
      simpl; [done|].
    rewrite Hc. destruct cname as [|ch cname]; [done|].
    rewrite Hget. simpl. by rewrite IH.
  - revert values. induction cols as [|col cols IH]; intros values; simpl.
    { intros [= <-]. constructor. }
    destruct (col !! "cname") as [[|ch cname]|] eqn:Hc; try done.
    destruct (getattr target (ch :: cname)) as [a|] eqn:Hget; [|done].
    simpl. destruct (column_values target cols) as [vs|]; [|done].
    simpl. intros [= <-]. constructor; [|by apply IH].
    by exists (ch :: cname).
Qed.

(** X7: With a table, the compact render of a struct hands to the table one
    value for each column, in the order of the columns: the attribute of
    the instance that the column's "cname" names. *)
Theorem struct_compact_row cols t target values depth o :
  Forall2 (λ (col : ColumnSpec) a, ∃ cname,
             col !! "cname" = Some cname ∧ cname ≠ []
             ∧ getattr target cname = Ok a) cols values →
  send (S depth) (mkRenderer StructTextRenderer (Some cols) (Some t))
       "render_compact" target o
  = Some (get_row t values)
  ∧ length values = length cols.
Proof.
  intros Hvalues. split; [|symmetry; by eapply Forall2_length].
  apply column_values_Ok in Hvalues.
  call. cbn [table columns]. by rewrite Hvalues.
Qed.

Lemma elide_length (line : unicode) : (length (elide line) ≤ 40)%nat.
Proof.
  unfold elide. destruct (Z.ltb_spec 40 (Z.of_nat (length line))).
  - rewrite length_app, length_take.
    change (length [ELLIPSIS]) with 1%nat. lia.
  - lia.
Qed.

(** X10: The compact render of a flags value returns a cell of at most 40
    characters, whatever the flag definition. *)
Theorem flags_compact_at_most_40 off value maskmap cols tbl depth o :
  ∃ c, send (S (S depth)) (mkRenderer FlagsTextRenderer cols tbl)
            "render_compact" (obj.Flags off value maskmap) o
       = Some (Ok c)
       ∧ (length (cell_value c) ≤ 40)%nat.
Proof.
  eexists. split; [apply flags_render_compact_eq|].
  cbn [cell cell_value]. destruct (splitlines _); [simpl; lia|].
  apply elide_length.
Qed.

(** X11: The flags shown for the bitwise or of two values are those shown for
    either value; the value 0 shows none. *)
Theorem flag_names_lor (a b : Z) (maskmap : gmap unicode Z) :
  (∀ name, name ∈ flag_names (Z.lor a b) maskmap
           ↔ name ∈ flag_names a maskmap ∨ name ∈ flag_names b maskmap)
  ∧ flag_names 0 maskmap = [].
Proof.
  split.
  - intros name. rewrite !flag_names_spec. split.
    + intros (mask & Hm & Hbits).
      destruct (decide (Z.land a mask = 0)) as [Ha|Ha].
      * right. exists mask. split; [done|]. intros Hb. apply Hbits.
        rewrite Z.land_lor_distr_l. apply Z.lor_eq_0_iff. done.
      * left. by exists mask.
    + intros [(mask & Hm & Hbits)|(mask & Hm & Hbits)];
        exists mask; (split; [done|]);
        rewrite Z.land_lor_distr_l, Z.lor_eq_0_iff; tauto.
  - apply elem_of_nil_inv. intros name.
    rewrite flag_names_spec. intros (mask & _ & Hbits).
    by rewrite Z.land_0_l in Hbits.
Qed.

Lemma split_head_prefix (s : unicode) :
  ∃ out, head (split NUL s) = Some out
         ∧ (NUL ∉ out) ∧ out `prefix_of` s ∧ (NUL ∉ s → out = s).
Proof.
  induction s as [|c s (out & Hhead & Hnul & Hpre & Hsame)]; simpl.
  { exists []. split; [done|]. split; [apply not_elem_of_nil|]. done. }
  destruct (decide (c = NUL)) as [->|Hc].
  { exists []. split; [done|]. split; [apply not_elem_of_nil|].
    split; [apply prefix_nil|]. intros []. constructor. }
  exists (c :: out). destruct (split NUL s) as [|seg segs]; [done|].
  simpl in *. injection Hhead as ->. split; [done|].
  split; [by apply not_elem_of_cons|].
  split; [by apply prefix_cons|].
  intros [_ Hs]%not_elem_of_cons. by rewrite Hsame.
Qed.

(** X12: The render of a string never holds a NUL: it is a beginning of the
    text of the string, and the whole text when that has no NUL. *)
Theorem string_render_prefix off text cols tbl depth o :
  ∃ out, send (S depth) (mkRenderer StringTextRenderer cols tbl)
              "render_full" (obj.String off text) o
         = Some (Ok (cell out))
         ∧ (NUL ∉ out) ∧ out `prefix_of` text
         ∧ (NUL ∉ text → out = text).
Proof.
  destruct (split_head_prefix text) as (out & Hhead & Hrest).
  exists out. split; [|done].
  call. unfold SmartUnicode. cbn [unicode_of]. by rewrite Hhead.
Qed.

Lemma width_name_foldl_ge (members : list Member) (w : Z) :
  w ≤ foldl (λ w m, Z.max w (len (obj.m_name m))) w members
  ∧ ∀ m, m ∈ members →
      len (obj.m_name m)
      ≤ foldl (λ w m, Z.max w (len (obj.m_name m))) w members.
Proof.
  revert w. induction members as [|m' members IH]; intros w; simpl.
  { split; [lia|]. intros m Hm. by apply elem_of_nil in Hm. }
  destruct (IH (Z.max w (len (obj.m_name m')))) as [Hw Hin].
  split; [lia|]. intros m [->|Hm]%elem_of_cons; [lia|by apply Hin].
Qed.

Lemma width_name_foldl_attained (members : list Member) (w : Z) :
  foldl (λ w m, Z.max w (len (obj.m_name m))) w members = w
  ∨ ∃ m, m ∈ members
         ∧ len (obj.m_name m)
           = foldl (λ w m, Z.max w (len (obj.m_name m))) w members.
Proof.
  revert w. induction members as [|m' members IH]; intros w; simpl.
  { by left. }
  destruct (IH (Z.max w (len (obj.m_name m')))) as [Heq|(m & Hm & Heq)].
  - destruct (Z.max_spec w (len (obj.m_name m'))) as [[_ Hmax]|[_ Hmax]].
    + right. exists m'. split; [left|]. congruence.
    + left. congruence.
  - right. exists m. split; [by right|done].
Qed.

(** [width_name] is the length of the longest member name. *)
Lemma width_name_longest (members : list Member) :
  (∀ m, m ∈ members → len (obj.m_name m) ≤ width_name members)
  ∧ (members ≠ [] →
     ∃ m, m ∈ members ∧ len (obj.m_name m) = width_name members).
Proof.
  destruct (width_name_foldl_ge members 0) as [_ Hle].
  fold (width_name members) in Hle. split; [done|].
  intros Hne.
  destruct (width_name_foldl_attained members 0) as [Hzero|Hm]; [|done].
  fold (width_name members) in Hzero.
  destruct members as [|m members]; [done|].
  exists m. split; [left|].
  specialize (Hle m ltac:(left)). unfold len in *. lia.
Qed.

(** X8: In the full render of a struct the names are padded to one width,
    that of the longest member name: the render returns the representation
    of the struct and one line for each field, made of two spaces, "0x",
    the offset in two or more upper case hexadecimal digits, a space, the
    name with its padding, a space and the representation of the member;
    every name with its padding has exactly the length of the longest
    member name. *)
Theorem struct_names_aligned off ty members cols tbl depth o :
  (∀ m reason, m ∈ members → is_None (obj.m_attr m) = true →
               obj.m_raw m ≠ obj.NoneObject reason) →
  ∃ lines,
    send (S depth) (mkRenderer StructTextRenderer cols tbl) "render_full"
         (obj.Struct off ty members) o
    = Some (Ok (cell (repr (obj.Struct off ty members) ++ [LF]
                      ++ join [LF] lines ++ [LF])))
    ∧ Forall2 (λ (f : field) line, ∃ n padded,
                 f.1.1 = KInt n
                 ∧ line = u "  0x" ++ format_02X n ++ u " " ++ padded
                            ++ u " " ++ f.2
                 ∧ padded = f.1.2 ++ replicate (length padded
                                                 - length f.1.2) 32%N
                 ∧ len padded = width_name members)
              (struct_fields repr off members) lines
    ∧ (∀ m, m ∈ members → len (obj.m_name m) ≤ width_name members)
    ∧ (members ≠ [] →
       ∃ m, m ∈ members ∧ len (obj.m_name m) = width_name members).
Proof.
  intros Hmembers.
  destruct (struct_full_render_Ok repr format_address new_table get_row
              image off ty members cols tbl depth o Hmembers)
    as (lines & Hlines & Hfull).
  destruct (width_name_longest members) as [Hle Hmax].
  exists lines. split; [done|]. split; [|done].
  apply format_fields_Ok in Hlines.
  assert (Forall (λ f : field, len f.1.2 ≤ width_name members)
                 (struct_fields repr off members)) as Hnames.
  { apply Forall_forall. intros f Hf. unfold struct_fields in Hf.
    rewrite sorted_Permutation in Hf by apply _.
    apply list_elem_of_fmap in Hf as (m & -> & Hm). by apply Hle. }
  clear Hfull. revert Hlines Hnames.
  generalize (struct_fields repr off members). intros fields Hlines.
  induction Hlines as [|f line fs ls (n & Hn & ->) _ IH]; intros Hnames;
    [constructor|].
  apply Forall_cons in Hnames as [Hf Hnames].
  constructor; [|by apply IH].
  exists n, (f.1.2 ++ spaces (width_name members - len f.1.2)).
  split; [done|]. split; [by rewrite <- !(assoc_L (++))|].
  unfold spaces, len in *.
  rewrite length_app, length_replicate. split; [f_equal; f_equal|]; lia.
Qed.



(** X4: The delegation of the full render of a pointer composes: through a
    chain of pointers the render returns what the full render of the
    renderer resolved for the value at the end returns on that value. *)
Theorem pointer_chain_full_render ptr target cols tbl o r :
  follows image ptr target →
  returns (mkRenderer PointerTextRenderer cols tbl) "render_full" ptr o r
  ↔ returns (mkRenderer (ForTarget target) None None)
            "render_full" target no_options r.
Proof.
  intros Hfollows. revert cols tbl o.
  induction Hfollows as [ptr target Hderef Hsome
                        |ptr off a ty target Hderef _ IH];
    intros cols tbl o.
  - unfold returns. split.
    + intros [[|d] H]; [done|]. exists d. revert H. call.
      by rewrite Hderef, Hsome, new_plain.
    + intros [d H]. exists (S d). call.
      by rewrite Hderef, Hsome, new_plain.
  - rewrite <- (IH None None no_options).
    unfold returns. split.
    + intros [[|d] H]; [done|]. exists d. revert H. call.
      rewrite Hderef. cbn [is_None].
      by rewrite new_plain, ForTarget_Pointer.
    + intros [d H]. exists (S d). call.
      rewrite Hderef. cbn [is_None].
      by rewrite new_plain, ForTarget_Pointer.
Qed.

Local Abbreviation item_render_row :=
  (item_render_row repr format_address new_table get_row image).
Local Abbreviation ListRenderer_items :=
  (ListRenderer_items repr format_address new_table get_row image).
Local Abbreviation ListRenderer_render_row :=
  (ListRenderer_render_row repr format_address new_table get_row image).

Lemma ListRenderer_items_Ok depth target o cells :
  Forall2 (λ item c, item_render_row depth item o = Some (Ok c))
          target cells →
  ListRenderer_items depth target o
  = Some (Ok ((λ c, join (u "\n") (lines c)) <$> cells)).
Proof.
  induction 1 as [|item c target cells Hitem _ IH]; simpl; [done|].
  by rewrite Hitem, IH.
Qed.

(** X13: The row render of a list whose items all render: the row renders of
    the items, each with its lines joined by a backslash and an n, joined
    by ", ", in a cell of the width asked for; the items are rendered with
    the style of the list and without its width.  The empty list gives
    the empty text. *)
Theorem list_render_row depth target o cells :
  Forall2 (λ item c,
             item_render_row depth item (mkOptions (style o) None)
             = Some (Ok c)) target cells →
  ListRenderer_render_row depth target o
  = Some (Ok (mkCell (join (u ", ")
                        ((λ c, join (u "\n") (lines c)) <$> cells))
                     (width o) [])).
Proof.
  intros Hcells. unfold ListRenderer_render_row.
  by rewrite (ListRenderer_items_Ok _ _ _ _ Hcells).
Qed.

(** X14: The row render of a list raises what the first item that fails
    raises; the items after it are not rendered. *)
Theorem list_render_row_raises depth pre item post o cells e :
  Forall2 (λ item c,
             item_render_row depth item (mkOptions (style o) None)
             = Some (Ok c)) pre cells →
  item_render_row depth item (mkOptions (style o) None) = Some (Raise e) →
  ListRenderer_render_row depth (pre ++ item :: post) o = Some (Raise e).
Proof.
  intros Hpre Hitem. unfold ListRenderer_render_row.
  assert (ListRenderer_items depth (pre ++ item :: post)
            (mkOptions (style o) None) = Some (Raise e)) as ->; [|done].
  induction Hpre as [|item' c pre cells Hc _ IH]; simpl.
  - by rewrite Hitem.
  - by rewrite Hc, IH.
Qed.

End Renderers_more.

(** * Further properties of check_modules *)

Section check_modules_more.
Import check_modules.

Implicit Types (img : Image) (kobj : kobject) (r : Renderer).

Lemma foldl_render_kobj_rows img modules (l : list kobject) r :
  Forall (λ x, ∃ m n c k, x = table_row m n c k) r →
  Forall (λ x, ∃ m n c k, x = table_row m n c k)
         (foldl (render_kobj img modules) r l)
  ∧ (length (foldl (render_kobj img modules) r l)
     ≤ length r + length l)%nat.
Proof.
  revert r. induction l as [|kobj l IH]; intros r Hr; simpl.
  { split; [done|lia]. }
  unfold render_kobj at 2 4. destruct (_ <? 3).
  - destruct (IH r Hr) as [? ?]. split; [done|lia].
  - edestruct (IH (r ++ [table_row (container_of img kobj)
                           (module_name img (container_of img kobj))
                           (kobj_refcount kobj)
                           (bool_decide (container_of img kobj ∈ modules))]))
      as [? Hlen].
    { apply Forall_app. split; [done|]. constructor; [|done]. eauto. }
    split; [done|]. rewrite length_app in Hlen. simpl in Hlen. lia.
Qed.

(** X15: The table of a run: the header once, first, then rows only, no more
    of them than the kset has entries, each with a reference count of 3 or
    more. *)
Theorem report_shape img :
  ∃ body, report img = header :: body
          ∧ Forall (λ x, ∃ m n c k, x = table_row m n c k) body
          ∧ (length body ≤ length (kset_entries img))%nat
          ∧ Forall (λ row, 3 ≤ row.1.2) (rows (report img)).
Proof.
  exists (foldl (render_kobj img (list_to_set (module_list img))) []
                (get_kset_modules img)).
  split.
  { unfold report, render. rewrite app_nil_l.
    apply (foldl_render_kobj_app img _ [header] []). }
  destruct (foldl_render_kobj_rows img (list_to_set (module_list img))
              (get_kset_modules img) []) as [Hrows Hlen]; [done|].
  split; [done|]. split.
  { etrans; [exact Hlen|]. simpl. unfold get_kset_modules.
    apply length_filter. }
  rewrite rows_report. apply Forall_fmap, Forall_forall.
  intros kobj [Hcount _]%list_elem_of_filter. done.
Qed.

(** X16: The module list decides the last column only: with any other module
    list the run finds the same modules, names and reference counts.  A
    module that took itself off the list is reported all the same. *)
Theorem module_list_only_known img (modules : list module) :
  found <$> rows (report img)
  = found <$> rows (report (mkImage (kset_entries img) (strings img)
                              (module_names img) (mkobj_offset img)
                              modules)).
Proof.
  rewrite !rows_report. cbn [kset_entries].
  rewrite <- !list_fmap_compose. apply list_fmap_ext. by intros _ kobj _.
Qed.

(** The text of a kobject's name is read and not used: the report does not
    depend on the strings of the image, the name shown is the one the
    module holds. *)
Remark kobject_name_text_unused img (strs : gmap Z unicode) :
  report (mkImage (kset_entries img) strs (module_names img)
            (mkobj_offset img) (module_list img))
  = report img.
Proof. reflexivity. Qed.

(** X17: A kobject of the kset with a name and at least three references has
    its row, and the row says known exactly when the module list holds a
    module at the address of its container: the address of the kobject
    less the offset of [mkobj]. *)
Theorem kobject_row img kobj :
  kobj ∈ kset_entries img →
  name_truthy kobj = true →
  3 ≤ kobj_refcount kobj →
  row_of img kobj ∈ rows (report img)
  ∧ ((row_of img kobj).2 = true
     ↔ ∃ m, m ∈ module_list img
            ∧ module_offset m = kobj_offset kobj - mkobj_offset img).
Proof.
  intros Hin Hname Hcount. split.
  - rewrite rows_report. apply list_elem_of_fmap_2.
    apply list_elem_of_filter. split; [done|].
    by apply list_elem_of_filter.
  - unfold row_of. cbn [snd]. rewrite bool_decide_eq_true. split.
    + intros Hm. by exists (container_of img kobj).
    + intros ([off] & Hm & Hoff). simpl in Hoff. subst off. done.
Qed.

End check_modules_more.

(** ** The further properties on concrete values *)

Lemma enumeration_label_witness :
  sample.send 1 (mkRenderer EnumerationTextRenderer None None) "render_full"
    (obj.Enumeration 0 3 sample_more.states None) no_options
  = Some (Ok (cell (u "UNKNOWN (3)")))
  ∧ sample.send 1 (mkRenderer EnumerationTextRenderer None None)
      "render_full" (obj.Enumeration 0 2 sample_more.states None) no_options
    = Some (Ok (cell (u "STOPPED"))).
Proof.
  split.
  - apply (proj1 (proj2 (proj2 (proj2
             (enumeration_label sample.repr sample.format_address
                sample.new_table sample.get_row sample.image
                0 3 sample_more.states None None None 0%nat no_options))))).
    + vm_compute. reflexivity.
    + by left.
  - apply (proj1 (enumeration_label sample.repr sample.format_address
                    sample.new_table sample.get_row sample.image
                    0 2 sample_more.states None None None 0%nat no_options)
             83%N (u "TOPPED")).
    vm_compute. reflexivity.
Defined.

Lemma pointer_to_nothing_renders_dash_witness :
  sample.send 1 (mkRenderer PointerTextRenderer None None) "render_full"
    (obj.Pointer 0 400 (u "int")) no_options
  = Some (Ok (cell (u "-"))).
Proof.
  apply (pointer_to_nothing_renders_dash sample.repr sample.format_address
           sample.new_table sample.get_row sample.image
           (obj.Pointer 0 400 (u "int"))
           (obj.NoneObject (u "invalid address")) None None 0%nat
           no_options).
  - vm_compute. reflexivity.
  - reflexivity.
Defined.

Lemma pointer_cycle_never_returns_witness :
  sample.send 1000 (mkRenderer PointerTextRenderer None None)
    "render_full" (obj.Pointer 200 200 (u "Pointer")) no_options
  = None.
Proof.
  apply (pointer_cycle_never_returns sample.repr sample.format_address
           sample.new_table sample.get_row sample.image
           (λ p, p = obj.Pointer 200 200 (u "Pointer"))).
  - intros p ->.
    exists 200, 200, (u "Pointer"), (obj.Pointer 200 200 (u "Pointer")).
    split; [reflexivity|]. split; [vm_compute; reflexivity|reflexivity].
  - reflexivity.
Defined.

Lemma pointer_value_is_address_witness :
  sample.send 2 (mkRenderer VoidTextRenderer None None) "render_value"
    (obj.Void 8 4096) no_options
  = Some (Ok (cell (u "0x1000"))).
Proof.
  apply (proj1 (proj2 (pointer_value_is_address sample.repr
                         sample.format_address sample.new_table
                         sample.get_row sample.image
                         VoidTextRenderer 8 4096 [] None None 0%nat
                         no_options (or_intror eq_refl)))).
Defined.

Lemma struct_compact_without_columns_witness :
  sample.send 2 (mkRenderer StructTextRenderer (Some []) None)
    "render_compact" sample.task no_options
  = Some (Ok (cell (u "<16>"))).
Proof.
  apply (proj2 (struct_compact_without_columns sample.repr
                  sample.format_address sample.new_table
                  sample.get_row sample.image
                  (Some []) _ sample.task 0%nat no_options
                  (or_intror eq_refl) eq_refl)).
Defined.

Lemma struct_compact_row_witness :
  sample.send 1
    (mkRenderer StructTextRenderer (Some [{[ "cname" := u "pid" ]}])
       (Some (mkTextTable [{[ "cname" := u "pid" ]}])))
    "render_compact" sample.task no_options
  = Some (Ok (cell (u "3"))).
Proof.
  apply (proj1 (struct_compact_row sample.repr sample.format_address
                  sample.new_table sample.get_row sample.image
                  [{[ "cname" := u "pid" ]}]
                  (mkTextTable [{[ "cname" := u "pid" ]}])
                  sample.task [obj.NativeType 24 3] 0%nat no_options
                  ltac:(constructor; [|constructor];
                        exists (u "pid");
                        split; [vm_compute; reflexivity|];
                        split; [discriminate|vm_compute; reflexivity]))).
Defined.

Lemma struct_names_aligned_witness :
  ∃ lines,
    sample.send 1 (mkRenderer StructTextRenderer None None) "render_full"
      sample.task no_options
    = Some (Ok (cell (sample.repr sample.task ++ [LF]
                      ++ join [LF] lines ++ [LF])))
    ∧ length lines = 2%nat.
Proof.
  destruct (struct_names_aligned sample.repr sample.format_address
              sample.new_table sample.get_row sample.image
              16 "task_struct"
              [obj.mkMember (u "pid") (obj.NativeType 24 3)
                            (obj.NativeType 24 3);
               obj.mkMember (u "comm") (obj.NoneObject (u "unreadable"))
                            (obj.String 18 (u "init"))]
              None None 0%nat no_options) as (lines & Hfull & Hlines & _).
  - intros m reason Hm Hnone Hraw.
    repeat (apply elem_of_cons in Hm as [->|Hm]);
      [discriminate Hnone|discriminate Hraw|by apply elem_of_nil in Hm].
  - exists lines. split; [exact Hfull|].
    apply Forall2_length in Hlines. rewrite <- Hlines.
    vm_compute. reflexivity.
Defined.


Lemma pointer_chain_full_render_witness :
  returns sample.repr sample.format_address sample.new_table sample.get_row
    sample_more.chain_image
    (mkRenderer PointerTextRenderer None None) "render_full"
    (obj.Pointer 500 600 (u "Pointer")) no_options
    (Ok (cell (u "EXEC, READ")))
  ↔ returns sample.repr sample.format_address sample.new_table
      sample.get_row sample_more.chain_image
      (mkRenderer (ForTarget (obj.Flags 700 5 sample.maskmap)) None None)
      "render_full" (obj.Flags 700 5 sample.maskmap) no_options
      (Ok (cell (u "EXEC, READ"))).
Proof.
  apply (pointer_chain_full_render sample.repr sample.format_address
           sample.new_table sample.get_row sample_more.chain_image).
  apply (follows_step _ _ 600 700 (u "Flags")).
  - vm_compute. reflexivity.
  - apply follows_one; [vm_compute; reflexivity|reflexivity].
Defined.

Lemma list_render_row_witness :
  sample_more.ListRenderer_render_row 3
    [obj.PyBool true; obj.String 0 (u "abc" ++ NUL :: u "def"); obj.PyInt 7]
    no_options
  = Some (Ok (cell (u "True, abc, 7"))).
Proof.
  apply (list_render_row sample.repr sample.format_address sample.new_table
           sample.get_row sample.image 3
           [obj.PyBool true; obj.String 0 (u "abc" ++ NUL :: u "def");
            obj.PyInt 7]
           no_options
           [mkCell (u "True") None [(0, -1, Some "GREEN", None)];
            cell (u "abc"); cell (u "7")]).
  repeat constructor; vm_compute; reflexivity.
Defined.

Lemma list_render_row_raises_witness :
  sample_more.ListRenderer_render_row 3
    [obj.PyInt 7; obj.Flags 0 5 sample.maskmap; obj.PyInt 8]
    (mkOptions (Some "value") None)
  = Some (Raise AttributeError).
Proof.
  apply (list_render_row_raises sample.repr sample.format_address
           sample.new_table sample.get_row sample.image 3
           [obj.PyInt 7] (obj.Flags 0 5 sample.maskmap) [obj.PyInt 8]
           (mkOptions (Some "value") None) [cell (u "7")]).
  - repeat constructor; vm_compute; reflexivity.
  - vm_compute. reflexivity.
Defined.

Lemma kobject_row_witness :
  (check_modules.mkModule 0x3000, u "mod_b", 5, false)
  ∈ check_modules.rows (check_modules.report (check_modules.scenario 0)).
Proof.
  apply (proj1 (kobject_row (check_modules.scenario 0)
                  (check_modules.mkKobject 0x3030 0x5010 5)
                  ltac:(repeat constructor) eq_refl ltac:(simpl; lia))).
Defined.
